(** * PyBackPilot: the 5Paisa historical-data downloader

    A shallow embedding of [downloader/FivaPaisaDownloader.py]: the
    scrip-master lookups, the request validation, and the daily and
    intraday download loops of [FivePaisaDownloader], followed by the
    properties of the specification stated over that embedding. *)

From Stdlib Require Import ZArith Ascii String List Bool Lia.
From stdpp Require Import base option list strings gmap.

Local Open Scope string_scope.
Local Open Scope Z_scope.

(** ** Text helpers *)

Module Text.

(** ASCII case folding, as SQLite's NOCASE collation and its LIKE
    operator do it: only the 26 letters A..Z are folded. *)
Definition lower (c : ascii) : ascii :=
  let n := N_of_ascii c in
  if ((65 <=? n) && (n <=? 90))%N then ascii_of_N (n + 32) else c.

Definition lower_string (s : string) : list ascii :=
  map lower (list_ascii_of_string s).

Definition is_digit (c : ascii) : bool :=
  let n := N_of_ascii c in ((48 <=? n) && (n <=? 57))%N.

Definition digit (c : ascii) : option Z :=
  if is_digit c then Some (Z.of_N (N_of_ascii c) - 48) else None.

Definition digit_char (d : Z) : ascii := ascii_of_N (Z.to_N (d + 48)).

(** Python's truth value of a [str]: the empty string is falsy. *)
Definition is_empty (s : string) : bool :=
  match s with EmptyString => true | _ => false end.

Definition mem (s : string) (l : list string) : bool :=
  existsb (String.eqb s) l.

End Text.

(** ** The scrip master table and the SQL the downloader runs on it *)

Module Sql.

(** One row of [scrip_master]. The table also has the columns ExchType,
    Expiry and StrikeRate; no statement of the downloader reads them.
    The four columns read are taken to hold values (no NULL). *)
Record ScripRecord := {
  Exch : string;
  ScripCode : Z;
  Name : string;
  FullName : string
}.

(** The three shapes of SELECT the downloader executes.  The exchange
    letter is the literal written in the statement text. *)
Inductive Query :=
| SelectByName (name exch : string)
    (* SELECT ScripCode FROM scrip_master
       WHERE Name = ? AND Exch = '<exch>' COLLATE NOCASE *)
| SelectByNameLike (pattern exch : string)
    (* SELECT ScripCode FROM scrip_master
       WHERE Name LIKE ? AND Exch = '<exch>' COLLATE NOCASE LIMIT 1 *)
| SelectByCode (code : Z).
    (* SELECT Name, FullName, Exch FROM scrip_master WHERE ScripCode = ? *)

(** [x = y COLLATE NOCASE]. *)
Definition nocase_eqb (x y : string) : bool :=
  bool_decide (Text.lower_string x = Text.lower_string y).

(** [s LIKE p] with SQLite's defaults: [%] matches any run of
    characters, [_] exactly one, everything else matches itself up to
    ASCII case; there is no escape character. *)
Fixpoint like_chars (p s : list ascii) : bool :=
  match p with
  | [] => match s with [] => true | _ => false end
  | c :: p' =>
      if Ascii.eqb c "%" then
        (fix any (s : list ascii) : bool :=
           like_chars p' s ||
           match s with [] => false | _ :: s' => any s' end) s
      else
        match s with
        | [] => false
        | d :: s' =>
            (Ascii.eqb c "_" || Ascii.eqb (Text.lower c) (Text.lower d))
            && like_chars p' s'
        end
  end.

Definition like (s pattern : string) : bool :=
  like_chars (list_ascii_of_string pattern) (list_ascii_of_string s).

(** The WHERE clause of each statement.  COLLATE is a postfix operator
    that binds tighter than [=] and AND, so in
    [Name = ? AND Exch = 'N' COLLATE NOCASE] it applies to the literal
    ['N'] only: the exchange is compared ignoring ASCII case, the name
    with the column's own (BINARY) collation. *)
Definition where_ (q : Query) (r : ScripRecord) : bool :=
  match q with
  | SelectByName name exch =>
      String.eqb (Name r) name && nocase_eqb (Exch r) exch
  | SelectByNameLike pattern exch =>
      like (Name r) pattern && nocase_eqb (Exch r) exch
  | SelectByCode code => Z.eqb (ScripCode r) code
  end.

(** [cursor.fetchone()] after executing [q]: the first matching row in
    table order, or [None]. *)
Definition fetchone (q : Query) (table : list ScripRecord) : option ScripRecord :=
  find (where_ q) table.

End Sql.

(** ** Calendar dates

    [datetime.strptime(s, "%Y-%m-%d")] yields midnight of a calendar day,
    and the downloader only ever adds whole days to it, compares it and
    prints it back with [strftime("%Y-%m-%d")].  Such a value is modelled
    by its proleptic Gregorian ordinal ([date.toordinal]: 0001-01-01 is
    day 1), following CPython's [_ymd2ord] and [_ord2ymd]. *)

Module Datetime.

Definition MAXORDINAL : Z := 3652059.  (* 9999-12-31 *)

Definition is_leap (year : Z) : bool :=
  (year mod 4 =? 0) && (negb (year mod 100 =? 0) || (year mod 400 =? 0)).

Definition DAYS_IN_MONTH : list Z :=
  [0; 31; 28; 31; 30; 31; 30; 31; 31; 30; 31; 30; 31].

Definition DAYS_BEFORE_MONTH : list Z :=
  [0; 0; 31; 59; 90; 120; 151; 181; 212; 243; 273; 304; 334].

Definition days_in_month (year month : Z) : Z :=
  if (month =? 2) && is_leap year then 29
  else nth (Z.to_nat month) DAYS_IN_MONTH 0.

Definition days_before_year (year : Z) : Z :=
  let y := year - 1 in y * 365 + y / 4 - y / 100 + y / 400.

Definition days_before_month (year month : Z) : Z :=
  nth (Z.to_nat month) DAYS_BEFORE_MONTH 0
  + (if (2 <? month) && is_leap year then 1 else 0).

Definition ymd2ord (year month day : Z) : Z :=
  days_before_year year + days_before_month year month + day.

Definition ord2ymd (ordinal : Z) : Z * Z * Z :=
  let n := ordinal - 1 in
  let n400 := n / 146097 in
  let n := n mod 146097 in
  let n100 := n / 36524 in
  let n := n mod 36524 in
  let n4 := n / 1461 in
  let n := n mod 1461 in
  let n1 := n / 365 in
  let n := n mod 365 in
  let year := n400 * 400 + 1 + n100 * 100 + n4 * 4 + n1 in
  if (n1 =? 4) || (n100 =? 4) then (year - 1, 12, 31)
  else
    let leapyear := (n1 =? 3) && (negb (n4 =? 24) || (n100 =? 3)) in
    let month := Z.shiftr (n + 50) 5 in
    let preceding :=
      nth (Z.to_nat month) DAYS_BEFORE_MONTH 0
      + (if (2 <? month) && leapyear then 1 else 0) in
    if n <? preceding then
      let month := month - 1 in
      let preceding :=
        preceding - (nth (Z.to_nat month) DAYS_IN_MONTH 0
                     + (if (month =? 2) && leapyear then 1 else 0)) in
      (year, month, n - preceding + 1)
    else (year, month, n - preceding + 1).

(** The month and day fields of the format, as the regular expressions
    of [_strptime] accept them: one or two digits, and for the day also
    a blank followed by one digit. *)
Definition two_digits (a b : ascii) : option Z :=
  match Text.digit a, Text.digit b with
  | Some x, Some y => Some (10 * x + y)
  | _, _ => None
  end.

Definition month_field (cs : list ascii) : option Z :=
  match cs with
  | [a] => match Text.digit a with
           | Some x => if 1 <=? x then Some x else None
           | None => None
           end
  | [a; b] => match two_digits a b with
              | Some m => if (1 <=? m) && (m <=? 12) then Some m else None
              | None => None
              end
  | _ => None
  end.

Definition day_field (cs : list ascii) : option Z :=
  match cs with
  | [a] => match Text.digit a with
           | Some x => if 1 <=? x then Some x else None
           | None => None
           end
  | [a; b] =>
      if Ascii.eqb a " " then
        match Text.digit b with
        | Some x => if 1 <=? x then Some x else None
        | None => None
        end
      else
        match two_digits a b with
        | Some d => if (1 <=? d) && (d <=? 31) then Some d else None
        | None => None
        end
  | _ => None
  end.

(** Splits at the first ["-"]. *)
Fixpoint until_dash (cs : list ascii) : option (list ascii * list ascii) :=
  match cs with
  | [] => None
  | c :: cs' =>
      if Ascii.eqb c "-" then Some ([], cs')
      else match until_dash cs' with
           | Some (field, rest) => Some (c :: field, rest)
           | None => None
           end
  end.

(** [datetime.strptime(s, "%Y-%m-%d")] on ASCII text; [None] stands for
    the [ValueError] it raises. *)
Definition strptime (s : string) : option Z :=
  match list_ascii_of_string s with
  | y1 :: y2 :: y3 :: y4 :: dash :: rest =>
      if Ascii.eqb dash "-" then
        match two_digits y1 y2, two_digits y3 y4, until_dash rest with
        | Some hi, Some lo, Some (mf, df) =>
            let year := 100 * hi + lo in
            match month_field mf, day_field df with
            | Some month, Some day =>
                if (1 <=? year) && (day <=? days_in_month year month)
                then Some (ymd2ord year month day)
                else None
            | _, _ => None
            end
        | _, _, _ => None
        end
      else None
  | _ => None
  end.

Definition pad2 (n : Z) : string :=
  String (Text.digit_char (n / 10)) (String (Text.digit_char (n mod 10)) "").

(** [d.strftime("%Y-%m-%d")] for years 1000 to 9999 (below 1000 the
    padding of [%Y] depends on the platform's C library; this model
    pads). *)
Definition strftime (ordinal : Z) : string :=
  let '(year, month, day) := ord2ymd ordinal in
  pad2 (year / 100) +:+ pad2 (year mod 100) +:+ "-" +:+ pad2 month
  +:+ "-" +:+ pad2 day.

(** [d + timedelta(days=n)]; [None] stands for [OverflowError]. *)
Definition add_days (d n : Z) : option Z :=
  let r := d + n in
  if (1 <=? r) && (r <=? MAXORDINAL) then Some r else None.

End Datetime.


(** ** Paths *)

Module Path.

Definition is_slash (c : ascii) : bool := Ascii.eqb c "/".

Fixpoint drop_while (f : ascii -> bool) (cs : list ascii) : list ascii :=
  match cs with
  | [] => []
  | c :: cs' => if f c then drop_while f cs' else cs
  end.

(** [os.path.dirname] (posixpath): everything up to the last slash,
    with trailing slashes stripped unless the head is slashes only. *)
Definition dirname (p : string) : string :=
  let rhead := drop_while (fun c => negb (is_slash c)) (rev (list_ascii_of_string p)) in
  let rhead := if forallb is_slash rhead then rhead else drop_while is_slash rhead in
  string_of_list_ascii (rev rhead).

(** The directories [os.makedirs(d)] brings into existence: [d] and its
    ancestors. *)
Fixpoint ancestors (fuel : nat) (d : string) : list string :=
  match fuel with
  | O => []
  | S fuel' =>
      if Text.is_empty d then []
      else
        let up := dirname d in
        if String.eqb up d then [d] else d :: ancestors fuel' up
  end.

End Path.


(** ** The downloader *)

(** Python dictionaries keep the order in which keys were first
    inserted; assigning to a key already present replaces its value in
    place. *)
Fixpoint dict_set {V : Type} (k : Z) (v : V) (d : list (Z * V)) : list (Z * V) :=
  match d with
  | [] => [(k, v)]
  | (k', v') :: d' =>
      if Z.eqb k' k then (k, v) :: d' else (k', v') :: dict_set k v d'
  end.

(** [dict(zip(keys, values))]. *)
Definition dict_zip {V : Type} (keys : list Z) (values : list V) : list (Z * V) :=
  fold_left (fun d kv => dict_set (fst kv) (snd kv) d) (combine keys values) [].

(** The exceptions the downloader can leave with.  Those it raises
    itself are all [Exception(msg)]; they are told apart here by the
    raise site. *)
Inductive exn :=
| ArgumentsMissing          (* "Arguments missing. Please provide all the arguments" *)
| NotConnected              (* "Not connected. Call connect() first." *)
| InvalidTimeFrame          (* "Invalid Time Frame, it should be within [...'1d']." *)
| InvalidExchange           (* "Invalid Exchange, it should be within [...]" *)
| InvalidExchangeSegment    (* "Invalid Exchange Segment, it should be within [...]" *)
| NoMatchesFound (scrip_name : string)   (* "No matches found for the scrip name ..." *)
| ScripCodesMissing         (* "Could not find scrip codes for all the Scrip names provided" *)
| NoScripName (scrip_code : Z)           (* "Could not find scrip name for scrip code: ..." *)
| CouldNotFetch (scrip_name : string)    (* "Could not fetch historical data for ..." *)
| NoDataFound (scrip_name : string)      (* "No data found for ..." *)
| InvalidIntradayTimeFrame  (* "Invalid Time Frame, it should be within [...'60m']." *)
| EmptyDict                 (* "Empty Dict received in get_intraday_historical_data()" *)
| TypeError                 (* subscripting None *)
| AttributeError            (* calling a method of None *)
| ValueError                (* strptime on text that does not match the format *)
| OverflowError             (* a date beyond 9999-12-31 *)
| OSError.                  (* the file system refuses the operation *)

(** The result of running a piece of the program: a value, an exception,
    or [Unfinished] when the fuel given to a [while] loop of the model
    ran out (which says nothing about the program). *)
Inductive outcome (A : Type) :=
| Return (a : A)
| Raise (e : exn)
| Unfinished.
Arguments Return {A} a.
Arguments Raise {A} e.
Arguments Unfinished {A}.

(** One call of [client.historical_data]. *)
Record FetchCall := {
  call_exchange : string;
  call_segment : string;
  call_code : Z;
  call_time : string;
  call_from : string;
  call_to : string
}.

Section Downloader.

(** A row of the data frames the broker returns, and the function the
    daily path applies to its Datetime cell
    ([strptime(str(x), "%Y-%m-%dT%H:%M:%S").date()], which can raise
    [ValueError]). *)
Context {Row : Type}.
Variable date_of : Row -> option Row.

(** [client.historical_data]: [None] is Python's None, [Some []] an
    empty frame.  The broker is outside the program, so its answer may
    depend on every call made before (newest first). *)
Definition FivePaisaClient : Type :=
  list (FetchCall * option (list Row)) -> FetchCall -> option (list Row).

(** Everything the downloader reads or changes. *)
Record World := {
  client : option FivePaisaClient;          (* self.client *)
  scrip_master : list Sql.ScripRecord;      (* data/scrip_master.db *)
  executed : list Sql.Query;                (* statements run, newest first *)
  fetched : list (FetchCall * option (list Row));  (* broker calls, newest first *)
  files : gmap string (list Row);           (* CSV files on disk *)
  dirs : gset string                        (* directories on disk *)
}.

Definition M (A : Type) : Type := World -> outcome A * World.

#[local] Instance M_ret : MRet M := fun A a w => (Return a, w).
#[local] Instance M_bind : MBind M := fun A B f m w =>
  match m w with
  | (Return a, w') => f a w'
  | (Raise e, w') => (Raise e, w')
  | (Unfinished, w') => (Unfinished, w')
  end.

Definition log_query (q : Sql.Query) (w : World) : World :=
  {| client := client w; scrip_master := scrip_master w;
     executed := q :: executed w; fetched := fetched w;
     files := files w; dirs := dirs w |}.

Definition log_call (c : FetchCall) (reply : option (list Row)) (w : World) : World :=
  {| client := client w; scrip_master := scrip_master w;
     executed := executed w; fetched := (c, reply) :: fetched w;
     files := files w; dirs := dirs w |}.

Definition write_file (filename : string) (df : list Row) (w : World) : World :=
  {| client := client w; scrip_master := scrip_master w;
     executed := executed w; fetched := fetched w;
     files := <[filename := df]> (files w); dirs := dirs w |}.

Definition add_dirs (ds : list string) (w : World) : World :=
  {| client := client w; scrip_master := scrip_master w;
     executed := executed w; fetched := fetched w;
     files := files w; dirs := list_to_set ds ∪ dirs w |}.

Definition raise {A : Type} (e : exn) : M A := fun w => (Raise e, w).
Definition unfinished {A : Type} : M A := fun w => (Unfinished, w).

(** *** Collaborators *)

(** [cursor.execute(q); cursor.fetchone()]. *)
Definition execute (q : Sql.Query) : M (option Sql.ScripRecord) := fun w =>
  (Return (Sql.fetchone q (scrip_master w)), log_query q w).

(** [self.client.historical_data(...)]. *)
Definition historical_data (c : FetchCall) : M (option (list Row)) := fun w =>
  match client w with
  | None => (Raise AttributeError, w)
  | Some api =>
      let reply := api (fetched w) c in
      (Return reply, log_call c reply w)
  end.

Definition os_path_exists (p : string) (w : World) : bool :=
  bool_decide (is_Some (files w !! p)) || bool_decide (p ∈ dirs w).

Definition os_makedirs (d : string) : M unit := fun w =>
  if Text.is_empty d then (Raise OSError, w)
  else (Return tt, add_dirs (Path.ancestors (String.length d) d) w).

Definition to_csv (df : list Row) (filename : string) : M unit := fun w =>
  if bool_decide (filename ∈ dirs w) then (Raise OSError, w)
  else (Return tt, write_file filename df w).

Definition save_to_csv (df : list Row) (filename : string) : M unit :=
  let directory := Path.dirname filename in
  fun w =>
    ((if os_path_exists directory w then mret tt else os_makedirs directory) ;;
     to_csv df filename) w.

(** *** Security resolver *)

(** [get_scrip_code_by_name].  [result] is the row [fetchone] returned,
    a one-element tuple holding the ScripCode (hence truthy), or None.
    The message logged after a partial search is an f-string that
    evaluates [result[0]] whatever the log level. *)
Definition get_scrip_code_by_name (name : string) : M (option Z) :=
  (* 1. Try exact match in NSE *)
  result ← execute (Sql.SelectByName name "N");
  (* 2. If not found, try exact match in BSE *)
  result ← (if result is None then execute (Sql.SelectByName name "B")
            else mret result);
  let searched_partially := false in
  (* 3. If still not found, try partial match in NSE *)
  state ← ((if result is None
            then r ← execute (Sql.SelectByNameLike ("%" +:+ name +:+ "%") "N");
                 mret (r, true)
            else mret (result, searched_partially))
           : M (option Sql.ScripRecord * bool));
  let result := fst state in
  let searched_partially := snd state in
  (* 4. If still not found, try partial match in BSE *)
  state ← ((if result is None
            then r ← execute (Sql.SelectByNameLike ("%" +:+ name +:+ "%") "B");
                 mret (r, true)
            else mret (result, searched_partially))
           : M (option Sql.ScripRecord * bool));
  let result := fst state in
  let searched_partially := snd state in
  (if (searched_partially : bool)
   then (if result is None then raise TypeError else mret tt)
   else mret tt) ;;
  mret (Sql.ScripCode <$> result).

(** [get_scrip_name_by_code]: the tuple (Name, FullName, Exch). *)
Definition get_scrip_name_by_code (scrip_code : Z) : M (option (string * string * string)) :=
  result ← execute (Sql.SelectByCode scrip_code);
  mret ((fun r => (Sql.Name r, Sql.FullName r, Sql.Exch r)) <$> result).

(** *** Request validation *)

Definition time_list : list string := ["1m"; "5m"; "10m"; "15m"; "30m"; "60m"; "1d"].

Definition exchange_map : list (string * string) :=
  [("N", "NSE"); ("B", "BSE"); ("M", "MCX"); ("n", "NCDEX")].

Definition exchange_segment_map : list (string * string) :=
  [("c", "Cash"); ("d", "Derivatives"); ("u", "Currency_Derivatives");
   ("x", "NCDEX_Commodity"); ("y", "NSE_BSE_Commodity")].

(** [key in d] and [d.get(key, default)] on those two constant maps. *)
Definition has_key (key : string) (d : list (string * string)) : bool :=
  Text.mem key (map fst d).

Definition get_default (key default : string) (d : list (string * string)) : string :=
  match find (fun kv => String.eqb (fst kv) key) d with
  | Some kv => snd kv
  | None => default
  end.

Definition validate_exchange_segment_and_time
    (time_period exchange exchange_segment : string) : M unit :=
  (if negb (Text.mem time_period time_list) then raise InvalidTimeFrame else mret tt) ;;
  (if negb (has_key exchange exchange_map) then raise InvalidExchange else mret tt) ;;
  (if negb (has_key exchange_segment exchange_segment_map)
   then raise InvalidExchangeSegment else mret tt).

(** *** Range fetch orchestrator *)

Definition file_name (scrip_name exchange_name exchange_segment_name
                      time_period from_date to_date : string) : string :=
  "data/" +:+ scrip_name +:+ "/" +:+ scrip_name +:+ "_" +:+ exchange_name +:+ "_"
  +:+ exchange_segment_name +:+ "_" +:+ time_period +:+ "_" +:+ from_date
  +:+ "_to_" +:+ to_date +:+ ".csv".

(** [data_frame['Datetime'].apply(...)] with that function: row by row, the first failure
    raises. *)
Fixpoint apply_date_of (df : list Row) : option (list Row) :=
  match df with
  | [] => Some []
  | r :: df' =>
      match date_of r with
      | Some r' => match apply_date_of df' with
                   | Some out => Some (r' :: out)
                   | None => None
                   end
      | None => None
      end
  end.

Definition is_empty_frame (df : list Row) : bool :=
  match df with [] => true | _ => false end.

(** The [while current_date < end_date] loop over the chunks of one
    security.  [timedelta(days=180)] and [timedelta(1)] are the two
    constants. *)
Fixpoint download_chunks (fuel : nat) (exchange exchange_segment : string)
    (scrip_code : Z) (scrip_name time_period : string)
    (current_date end_date : Z) (data_frames : list (list Row))
    : M (list (list Row)) :=
  if current_date <? end_date then
    match fuel with
    | O => unfinished
    | S fuel' =>
        match Datetime.add_days current_date 180 with
        | None => raise OverflowError
        | Some limit =>
            let current_end_date := Z.min end_date limit in
            data_frame ← historical_data
              {| call_exchange := exchange; call_segment := exchange_segment;
                 call_code := scrip_code; call_time := time_period;
                 call_from := Datetime.strftime current_date;
                 call_to := Datetime.strftime current_end_date |};
            match data_frame with
            | None => raise (CouldNotFetch scrip_name)
            | Some df =>
                let data_frames :=
                  if is_empty_frame df then data_frames else (data_frames ++ [df])%list in
                match Datetime.add_days current_end_date 1 with
                | None => raise OverflowError
                | Some next =>
                    download_chunks fuel' exchange exchange_segment scrip_code
                      scrip_name time_period next end_date data_frames
                end
            end
        end
    end
  else mret data_frames.

(** The body of the [for scrip_code in scrip_codes_map] loop of
    [get_historical_intraday_data]. *)
Definition intraday_one (exchange exchange_segment time_period from_date to_date
                         exchange_name exchange_segment_name : string)
    (scrip_code : Z) (scrip_name : string) : M unit := fun w =>
  let file := file_name scrip_name exchange_name exchange_segment_name
                time_period from_date to_date in
  if os_path_exists file w then (Return tt, w)   (* continue *)
  else
    match Datetime.strptime from_date with
    | None => (Raise ValueError, w)
    | Some start_date =>
        match Datetime.strptime to_date with
        | None => (Raise ValueError, w)
        | Some end_date =>
            (data_frames ← download_chunks (Z.to_nat (end_date - start_date))
               exchange exchange_segment scrip_code scrip_name time_period
               start_date end_date [];
             if (length data_frames =? 0)%nat then raise (NoDataFound scrip_name)
             else save_to_csv (concat data_frames) file) w
        end
    end.

Fixpoint for_each {A : Type} (body : A -> M unit) (l : list A) : M unit :=
  match l with
  | [] => mret tt
  | x :: l' => body x ;; for_each body l'
  end.

Definition intraday_loop (exchange exchange_segment time_period from_date to_date
                          exchange_name exchange_segment_name : string)
    (scrips : list (Z * string)) : M unit :=
  for_each (fun kv =>
              intraday_one exchange exchange_segment time_period from_date to_date
                exchange_name exchange_segment_name (fst kv) (snd kv))
           scrips.

Definition get_historical_intraday_data (exchange exchange_segment : string)
    (scrip_codes_map : option (list (Z * string)))
    (time_period from_date to_date : string) : M unit :=
  if negb (Text.mem time_period ["1m"; "5m"; "10m"; "15m"; "30m"; "60m"])
  then raise InvalidIntradayTimeFrame
  else
    match scrip_codes_map with
    | None => raise EmptyDict
    | Some scrips =>
        let exchange_name := get_default exchange exchange exchange_map in
        let exchange_segment_name :=
          get_default exchange_segment exchange_segment exchange_segment_map in
        intraday_loop exchange exchange_segment time_period from_date to_date
          exchange_name exchange_segment_name scrips
    end.

(** The body of the daily loop of [get_historical_data]. *)
Definition daily_one (exchange exchange_segment time_period from_date to_date
                      exchange_name exchange_segment_name : string)
    (scrip_code : Z) (scrip_name : string) : M unit := fun w =>
  let file := file_name scrip_name exchange_name exchange_segment_name
                time_period from_date to_date in
  if os_path_exists file w then (Return tt, w)   (* continue *)
  else
    (data_frame ← historical_data
       {| call_exchange := exchange; call_segment := exchange_segment;
          call_code := scrip_code; call_time := time_period;
          call_from := from_date; call_to := to_date |};
     match data_frame with
     | None => raise (CouldNotFetch scrip_name)
     | Some df =>
         if is_empty_frame df then mret tt   (* continue *)
         else
           match apply_date_of df with
           | None => raise ValueError
           | Some df' => save_to_csv df' file
           end
     end) w.

Definition daily_loop (exchange exchange_segment time_period from_date to_date
                       exchange_name exchange_segment_name : string)
    (scrips : list (Z * string)) : M unit :=
  for_each (fun kv =>
              daily_one exchange exchange_segment time_period from_date to_date
                exchange_name exchange_segment_name (fst kv) (snd kv))
           scrips.

(** The two resolution loops of [get_historical_data]. *)
Fixpoint fetch_scrip_codes (scrip_names : list string) (fetched_scrip_codes : list Z)
    : M (list Z) :=
  match scrip_names with
  | [] => mret fetched_scrip_codes
  | name :: rest =>
      fetched_scrip_code ← get_scrip_code_by_name name;
      match fetched_scrip_code with
      | None => raise (NoMatchesFound name)
      | Some code => fetch_scrip_codes rest (fetched_scrip_codes ++ [code])%list
      end
  end.

Fixpoint correct_scrip_names (fetched_scrip_codes : list Z)
    (scrip_names_corrected : list string) : M (list string) :=
  match fetched_scrip_codes with
  | [] => mret scrip_names_corrected
  | code :: rest =>
      fetched_scrip_name ← get_scrip_name_by_code code;
      match fetched_scrip_name with
      | None => raise (NoScripName code)
      | Some (name, _, _) => correct_scrip_names rest (scrip_names_corrected ++ [name])%list
      end
  end.

Definition get_historical_data (exchange exchange_segment : string)
    (scrip_names : list string) (time_period from_date to_date : string) : M unit :=
  fun w =>
  if Text.is_empty exchange || Text.is_empty exchange_segment
     || (length scrip_names =? 0)%nat || Text.is_empty time_period
     || Text.is_empty from_date || Text.is_empty to_date
  then (Raise ArgumentsMissing, w)
  else if (if client w is None then true else false) then (Raise NotConnected, w)
  else
    (validate_exchange_segment_and_time time_period exchange exchange_segment ;;
     fetched_scrip_codes ← fetch_scrip_codes scrip_names [];
     (if negb (length fetched_scrip_codes =? length scrip_names)%nat
      then raise ScripCodesMissing else mret tt) ;;
     scrip_names_corrected ← correct_scrip_names fetched_scrip_codes [];
     let scrip_codes_map := dict_zip fetched_scrip_codes scrip_names_corrected in
     let exchange_name := get_default exchange exchange exchange_map in
     let exchange_segment_name :=
       get_default exchange_segment exchange_segment exchange_segment_map in
     if String.eqb time_period "1d" then
       daily_loop exchange exchange_segment time_period from_date to_date
         exchange_name exchange_segment_name scrip_codes_map
     else
       get_historical_intraday_data exchange exchange_segment (Some scrip_codes_map)
         time_period from_date to_date) w.

End Downloader.

(** ** Vocabulary of the properties *)


(** ** What one resolution computes *)

(** The four statements of [get_scrip_code_by_name], in the order it
    runs them. *)
Definition tiers (name : string) : list Sql.Query :=
  [Sql.SelectByName name "N"; Sql.SelectByName name "B";
   Sql.SelectByNameLike ("%" +:+ name +:+ "%") "N";
   Sql.SelectByNameLike ("%" +:+ name +:+ "%") "B"].

(** The row of the first statement that returns one. *)
Fixpoint first_hit (table : list Sql.ScripRecord) (qs : list Sql.Query)
    : option Sql.ScripRecord :=
  match qs with
  | [] => None
  | q :: qs' =>
      match Sql.fetchone q table with
      | Some r => Some r
      | None => first_hit table qs'
      end
  end.

Definition resolve_code (table : list Sql.ScripRecord) (name : string) : option Z :=
  Sql.ScripCode <$> first_hit table (tiers name).

Definition resolve_name (table : list Sql.ScripRecord) (code : Z) : option string :=
  Sql.Name <$> Sql.fetchone (Sql.SelectByCode code) table.

(** Two worlds that differ at most in the log of executed statements. *)
Definition same_outside_sql {Row : Type} (w w' : @World Row) : Prop :=
  client w' = client w /\ scrip_master w' = scrip_master w /\
  fetched w' = fetched w /\ files w' = files w /\ dirs w' = dirs w.

(** The guard at the top of [get_historical_data]. *)
Definition arguments_missing (exchange exchange_segment : string)
    (scrip_names : list string) (time_period from_date to_date : string) : bool :=
  Text.is_empty exchange || Text.is_empty exchange_segment
  || (length scrip_names =? 0)%nat || Text.is_empty time_period
  || Text.is_empty from_date || Text.is_empty to_date.

Definition values_valid (time_period exchange exchange_segment : string) : bool :=
  Text.mem time_period time_list && has_key exchange exchange_map
  && has_key exchange_segment exchange_segment_map.

(** The frames a run of broker calls produced: the non-empty replies, in
    the order of the calls. *)
Fixpoint frames_of {Row : Type} (calls : list (FetchCall * option (list Row)))
    : list (list Row) :=
  match calls with
  | [] => []
  | (_, Some df) :: rest =>
      if is_empty_frame df then frames_of rest else df :: frames_of rest
  | (_, None) :: rest => frames_of rest
  end.

(** The chunks the [while] loop of the intraday path visits from
    [current_date] on, as pairs (first day, last day). *)
Fixpoint chunks (fuel : nat) (current_date end_date : Z) : list (Z * Z) :=
  if current_date <? end_date then
    match fuel with
    | O => []
    | S fuel' =>
        let current_end_date := Z.min end_date (current_date + 180) in
        (current_date, current_end_date)
          :: chunks fuel' (current_end_date + 1) end_date
    end
  else [].

(** Chunks that follow each other from [start] on without gap or
    overlap, each of at most 180 days and none beyond [end_date]. *)
Fixpoint chained (start end_date : Z) (cs : list (Z * Z)) : Prop :=
  match cs with
  | [] => True
  | (a, b) :: rest =>
      a = start /\ a < b <= a + 180 /\ b <= end_date /\ chained (b + 1) end_date rest
  end.

(** The first day no chunk covers. *)
Fixpoint uncovered (start : Z) (cs : list (Z * Z)) : Z :=
  match cs with
  | [] => start
  | (_, b) :: rest => uncovered (b + 1) rest
  end.

Definition chunk_dates (c : Z * Z) : string * string :=
  (Datetime.strftime (fst c), Datetime.strftime (snd c)).

Definition call_dates {Row : Type} (c : FetchCall * option (list Row))
    : string * string :=
  (call_from (fst c), call_to (fst c)).

(** The broker calls made between two worlds, oldest first. *)
Definition calls_between {Row : Type} (w w' : @World Row)
    : list (FetchCall * option (list Row)) :=
  rev (take (length (fetched w') - length (fetched w)) (fetched w')).

(** The outcome of the intraday fetch of one security, decided by the
    frames its chunks produced alone: none, and the fetch fails with
    "No data found" and writes nothing; some, and their concatenation is
    written as the artifact. *)
Definition frames_decide_outcome {Row : Type}
    (exchange exchange_segment time_period from_date to_date
     exchange_name exchange_segment_name : string)
    (scrip_code : Z) (scrip_name : string) (w : @World Row) : Prop :=
  let run := intraday_one exchange exchange_segment time_period from_date to_date
               exchange_name exchange_segment_name scrip_code scrip_name w in
  let frames := frames_of (calls_between w (snd run)) in
  let file := file_name scrip_name exchange_name exchange_segment_name
                time_period from_date to_date in
  match frames with
  | [] => fst run = Raise (NoDataFound scrip_name) /\ files (snd run) = files w
  | _ :: _ => fst run = Return tt /\
              files (snd run) = <[file := concat frames]> (files w)
  end.

(** The path of the artifact a requested name stands for: the name is
    resolved to a code, the code to its canonical name. *)
Definition artifact (table : list Sql.ScripRecord)
    (exchange exchange_segment time_period from_date to_date name : string)
    : option string :=
  code ← resolve_code table name;
  scrip_name ← resolve_name table code;
  Some (file_name scrip_name (get_default exchange exchange exchange_map)
          (get_default exchange_segment exchange_segment exchange_segment_map)
          time_period from_date to_date).

(** ** Sample inputs

    A small scrip master, three brokers and a world to run the
    downloader in.  The rows of the sample frames are lines of text. *)

Module Sample.

Definition table : list Sql.ScripRecord :=
  [ {| Sql.Exch := "N"; Sql.ScripCode := 2885; Sql.Name := "RELIANCE";
       Sql.FullName := "RELIANCE INDUSTRIES LTD" |};
    {| Sql.Exch := "n"; Sql.ScripCode := 10; Sql.Name := "GOLD";
       Sql.FullName := "GOLD NCDEX" |};
    {| Sql.Exch := "B"; Sql.ScripCode := 20; Sql.Name := "GOLD";
       Sql.FullName := "GOLD BSE" |};
    {| Sql.Exch := "N"; Sql.ScripCode := 30; Sql.Name := "GOLDBEES";
       Sql.FullName := "NIPPON INDIA ETF GOLD BEES" |};
    {| Sql.Exch := "N"; Sql.ScripCode := 11536; Sql.Name := "TCS";
       Sql.FullName := "TATA CONSULTANCY SERV LT" |} ].

(** Answers every call with one row, the first day asked for. *)
Definition broker_echo : @FivePaisaClient string :=
  fun _ c => Some [call_from c].

(** Answers every call with an empty frame. *)
Definition broker_silent : @FivePaisaClient string :=
  fun _ _ => Some [].

(** Answers the first call with one row and every later call with None. *)
Definition broker_flaky : @FivePaisaClient string :=
  fun history c => match history with [] => Some [call_from c] | _ => None end.

Definition date_only (row : string) : option string :=
  Some (String.substring 0 10 row).

Definition world (api : @FivePaisaClient string) (on_disk : gmap string (list string))
    : @World string :=
  {| client := Some api; scrip_master := table; executed := []; fetched := [];
     files := on_disk; dirs := ∅ |}.

End Sample.

(** ** Vocabulary of the further properties *)

(** The statements a lookup over [qs] executes: each one in turn, up to
    and including the first that returns a row. *)
Fixpoint queries_run (table : list Sql.ScripRecord) (qs : list Sql.Query)
    : list Sql.Query :=
  match qs with
  | [] => []
  | q :: qs' =>
      q :: (if Sql.fetchone q table is Some _ then [] else queries_run table qs')
  end.

(** [name] occurs in [s], up to ASCII case. *)
Definition contains_nocase (s name : string) : Prop :=
  exists pre mid post,
    list_ascii_of_string s = (pre ++ mid ++ post)%list /\
    map Text.lower mid = Text.lower_string name.

(** The exchanges whose rows the four statements can return. *)
Definition searched_exchanges : list string := ["N"; "n"; "B"; "b"].

(** [s] holds no slash. *)
Definition no_slash (s : string) : bool :=
  forallb (fun c => negb (Path.is_slash c)) (list_ascii_of_string s).

(** The exceptions the two download loops can end with. *)
Definition raised_by_fetch (e : exn) : Prop :=
  match e with
  | CouldNotFetch _ | NoDataFound _ | ValueError | OverflowError => True
  | _ => False
  end.

(** The exceptions a download can end with. *)
Definition raised_by_download (e : exn) : Prop :=
  match e with
  | ArgumentsMissing | NotConnected | InvalidTimeFrame | InvalidExchange
  | InvalidExchangeSegment | TypeError | CouldNotFetch _ | NoDataFound _
  | ValueError | OverflowError => True
  | _ => False
  end.

(** [w'] has the client and the scrip master of [w], and every file and
    directory of [w], the files with their content. *)
Definition extends {Row : Type} (w w' : @World Row) : Prop :=
  client w' = client w /\ scrip_master w' = scrip_master w /\
  dirs w ⊆ dirs w' /\ files w ⊆ files w'.

(** ** Connecting and refreshing the scrip master

    [connect], [check_and_update_scrip_master], [setup_database] and
    [store_scrip_master_to_db].  Time is counted in microseconds, the
    resolution of [datetime]; the clock moves only while the program
    sleeps.  The scrip master CSV is taken to give back, through
    [read_csv], the frame [to_csv] wrote, with the selected columns
    present. *)

Module Session.

(** What [client.get_totp_session] does: it returns a response, returns
    None, or raises. *)
Inductive LoginReply := Welcome | NoResponse | Refused.

Inductive failure :=
| CouldNotLogIn              (* "Could not log in to 5Paisa after retry. ..." *)
| CouldNotFetchScripMaster   (* "Could not fetch Scrip Master." *)
| FileNotFound               (* read_csv on a missing file *)
| Python (e : exn)           (* an exception of the downloads *)
| OutOfFuel.                 (* [Unfinished] *)

Inductive result (A : Type) :=
| Ok (a : A)
| Failed (f : failure).
Arguments Ok {A} a.
Arguments Failed {A} f.

Definition DAY : Z := 86400 * 1000000.

Section Session.

Context {Row : Type}.

(** The downloader's world and what surrounds it. *)
Record Host := {
  world : @World Row;
  new_client : @FivePaisaClient Row;     (* the object FivePaisaClient(cred=...) builds *)
  login : nat -> LoginReply;             (* answer to the n-th call of get_totp_session *)
  logins : nat;                          (* calls of get_totp_session so far *)
  slept : list Z;                        (* time.sleep calls in seconds, newest first *)
  clock : Z;                             (* datetime.now() *)
  scrips : option (list Sql.ScripRecord);   (* answer of client.get_scrips() *)
  scrips_calls : nat;                    (* calls of get_scrips so far *)
  scrip_master_csv : option (Z * list Sql.ScripRecord)
                                         (* data/scrip_master.csv: mtime and rows *)
}.

Definition S (A : Type) : Type := Host -> result A * Host.

#[local] Instance S_ret : MRet S := fun A a h => (Ok a, h).
#[local] Instance S_bind : MBind S := fun A B f m h =>
  match m h with
  | (Ok a, h') => f a h'
  | (Failed e, h') => (Failed e, h')
  end.

Definition fail {A : Type} (f : failure) : S A := fun h => (Failed f, h).

Definition set_world (w : @World Row) (h : Host) : Host :=
  {| world := w; new_client := new_client h; login := login h; logins := logins h;
     slept := slept h; clock := clock h; scrips := scrips h;
     scrips_calls := scrips_calls h; scrip_master_csv := scrip_master_csv h |}.

Definition set_client (c : option (@FivePaisaClient Row)) (w : @World Row) : @World Row :=
  {| client := c; scrip_master := scrip_master w; executed := executed w;
     fetched := fetched w; files := files w; dirs := dirs w |}.

Definition set_scrip_master (table : list Sql.ScripRecord) (w : @World Row)
    : @World Row :=
  {| client := client w; scrip_master := table; executed := executed w;
     fetched := fetched w; files := files w; dirs := dirs w |}.

(** A piece of the downloader run inside the host. *)
Definition lift {A : Type} (m : M A) : S A := fun h =>
  match m (world h) with
  | (Return a, w) => (Ok a, set_world w h)
  | (Raise e, w) => (Failed (Python e), set_world w h)
  | (Unfinished, w) => (Failed OutOfFuel, set_world w h)
  end.

Definition get_totp_session : S LoginReply := fun h =>
  (Ok (login h (logins h)),
   {| world := world h; new_client := new_client h; login := login h;
      logins := Datatypes.S (logins h); slept := slept h; clock := clock h;
      scrips := scrips h; scrips_calls := scrips_calls h;
      scrip_master_csv := scrip_master_csv h |}).

Definition sleep (seconds : Z) : S unit := fun h =>
  (Ok tt,
   {| world := world h; new_client := new_client h; login := login h;
      logins := logins h; slept := seconds :: slept h;
      clock := clock h + seconds * 1000000;
      scrips := scrips h; scrips_calls := scrips_calls h;
      scrip_master_csv := scrip_master_csv h |}).

Definition get_scrips : S (option (list Sql.ScripRecord)) := fun h =>
  (Ok (scrips h),
   {| world := world h; new_client := new_client h; login := login h;
      logins := logins h; slept := slept h; clock := clock h;
      scrips := scrips h; scrips_calls := Datatypes.S (scrips_calls h);
      scrip_master_csv := scrip_master_csv h |}).

(** [scrip_data_frame.to_csv("data/scrip_master.csv")]. *)
Definition write_scrip_master_csv (rows : list Sql.ScripRecord) : S unit := fun h =>
  (Ok tt,
   {| world := world h; new_client := new_client h; login := login h;
      logins := logins h; slept := slept h; clock := clock h;
      scrips := scrips h; scrips_calls := scrips_calls h;
      scrip_master_csv := Some (clock h, rows) |}).

(** [setup_database]: CREATE TABLE IF NOT EXISTS changes no row. *)
Definition setup_database : S unit := mret tt.

(** [store_scrip_master_to_db]: the table is replaced by the rows of the
    CSV ([to_sql(..., if_exists="replace")]).  The rows are those
    [read_csv] yields: a cell it would read as missing (NA, NULL, nan,
    an empty cell) and a CSV without one of the selected columns (a
    [KeyError]) are outside this model. *)
Definition store_scrip_master_to_db : S unit := fun h =>
  match scrip_master_csv h with
  | None => (Failed FileNotFound, h)
  | Some (_, rows) => (Ok tt, set_world (set_scrip_master rows (world h)) h)
  end.

Definition get_host : S Host := fun h => (Ok h, h).

(** The test on the age of the CSV:
    [datetime.now() - modified_time < timedelta(days=7)] leaves it. *)
Definition needs_update (h : Host) : bool :=
  match scrip_master_csv h with
  | Some (modified_time, _) =>
      if clock h - modified_time <? 7 * DAY then false else true
  | None => true
  end.

Definition check_and_update_scrip_master : S unit :=
  h ← get_host;
  ((if os_path_exists "data" (world h) then mret tt else lift (os_makedirs "data"))
   : S unit) ;;
  h ← get_host;
  ((if needs_update h
    then scrip_data_frame ← get_scrips;
         match scrip_data_frame with
         | None => fail CouldNotFetchScripMaster
         | Some rows => write_scrip_master_csv rows
         end
    else mret tt) : S unit) ;;
  setup_database ;;
  store_scrip_master_to_db.

(** The [for attempt in range(2)] loop of [connect]. *)
Fixpoint login_attempts (attempts : list nat) : S unit :=
  match attempts with
  | [] => mret tt
  | attempt :: rest =>
      reply ← get_totp_session;
      match reply with
      | Welcome => mret tt                      (* break *)
      | NoResponse | Refused =>
          if (attempt =? 0)%nat then (sleep 30 ;; login_attempts rest : S unit)
          else fail CouldNotLogIn
      end
  end.

(** [self.client = FivePaisaClient(cred=self.creds)]. *)
Definition make_client : S unit := fun h =>
  (Ok tt, set_world (set_client (Some (new_client h)) (world h)) h).

Definition connect : S unit :=
  make_client ;;
  login_attempts [0; 1]%nat ;;
  check_and_update_scrip_master.

(** [test_downloader] of main.py, once the credentials are read from
    the environment. *)
Definition test_downloader (date_of : Row -> option Row) : S unit :=
  connect ;;
  lift
    (get_historical_data date_of "N" "c"
       ["DRREDDY"; "RELIANCE"; "TATAMOTORS"; "UPL"; "ICICIPRULI"; "HAL"; "RELIGARE";
        "SUNTECK"; "ONGC"; "MOTILALOFS"; "IGPL"; "HINDPETRO"; "NIFTY"; "BANKNIFTY"]
       "30m" "2020-01-01" "2025-05-01").

End Session.

End Session.

(** ** Sample hosts *)

Module SampleHost.

(** Answers every call with one candle of the first day asked for. *)
Definition broker_candle : @FivePaisaClient string :=
  fun _ c => Some [call_from c +:+ "T09:15:00"].

(** A host whose world has an empty scrip master and no file. *)
Definition host (login : nat -> Session.LoginReply)
    (scrips : option (list Sql.ScripRecord))
    (csv : option (Z * list Sql.ScripRecord)) (clock : Z) : @Session.Host string :=
  {| Session.world :=
       {| client := None; scrip_master := []; executed := []; fetched := [];
          files := ∅; dirs := ∅ |};
     Session.new_client := broker_candle;
     Session.login := login; Session.logins := 0; Session.slept := [];
     Session.clock := clock; Session.scrips := scrips; Session.scrips_calls := 0;
     Session.scrip_master_csv := csv |}.

End SampleHost.

(** ** A request on a downloader that never connected *)

(** [get_historical_data] refuses the request with one of its four
    input errors, in the world it was called in. *)
Definition rejected_as_invalid {Row : Type} (date_of : Row -> option Row)
    (exchange exchange_segment : string) (scrip_names : list string)
    (time_period from_date to_date : string) (w : @World Row) : Prop :=
  exists e,
    In e [ArgumentsMissing; InvalidTimeFrame; InvalidExchange; InvalidExchangeSegment] /\
    get_historical_data date_of exchange exchange_segment scrip_names
      time_period from_date to_date w = (Raise e, w).

(** The sample scrip master with [self.client] still None. *)
Definition unconnected_world : @World string :=
  {| client := None; scrip_master := Sample.table; executed := []; fetched := [];
     files := ∅; dirs := ∅ |}.

(** * Properties *)

(** ** The models of the library functions on known values *)

Example strptime_2020 : Datetime.strptime "2020-01-01" = Some 737425.
Proof. reflexivity. Qed.

Example strftime_2020 :
  (Datetime.strftime <$> Datetime.add_days 737425 180) = Some "2020-06-29".
Proof. vm_compute. reflexivity. Qed.

Example strptime_rejects :
  map Datetime.strptime ["2021-02-29"; "2020-13-01"; "20200101"; "2020-01-011"] =
  [None; None; None; None].
Proof. vm_compute. reflexivity. Qed.

Example dirname_artifact :
  Path.dirname "data/UPL/UPL_NSE_Cash_1d_2020-01-01_to_2020-02-01.csv" = "data/UPL".
Proof. reflexivity. Qed.

Example ancestors_artifact :
  Path.ancestors 8 "data/UPL" = ["data/UPL"; "data"].
Proof. reflexivity. Qed.

(** ** Paths of artifacts *)

Lemma chars_append (a b : string) :
  list_ascii_of_string (a +:+ b) = (list_ascii_of_string a ++ list_ascii_of_string b)%list.
Proof. induction a as [|c a IH]; simpl; [reflexivity|]. f_equal. exact IH. Qed.

Lemma append_assoc (a b c : string) : (a +:+ b) +:+ c = a +:+ (b +:+ c).
Proof.
  induction a as [|x a IH]; [reflexivity|].
  change (String x ((a +:+ b) +:+ c) = String x (a +:+ (b +:+ c))). by rewrite IH.
Qed.

Lemma chars_length (s : string) :
  length (list_ascii_of_string s) = String.length s.
Proof. induction s as [|c s IH]; cbn; [reflexivity|]. by rewrite IH. Qed.

Lemma string_of_chars_length (l : list ascii) :
  String.length (string_of_list_ascii l) = length l.
Proof. induction l as [|c l IH]; cbn; [reflexivity|]. by rewrite IH. Qed.

Lemma drop_while_length f (l : list ascii) :
  (length (Path.drop_while f l) <= length l)%nat.
Proof.
  induction l as [|c l IH]; cbn; [lia|]. destruct (f c); cbn; lia.
Qed.

(** [drop_while] never goes past an element that fails the test. *)
Lemma drop_while_keeps f (l1 l2 : list ascii) c :
  f c = false ->
  exists pre, Path.drop_while f (l1 ++ c :: l2) = (pre ++ c :: l2)%list.
Proof.
  intros Hc. induction l1 as [|a l1 IH]; cbn.
  - rewrite Hc. by exists [].
  - destruct (f a); [exact IH|]. by exists (a :: l1).
Qed.

Lemma dirname_length (p : string) :
  (String.length (Path.dirname p) <= String.length p)%nat.
Proof.
  unfold Path.dirname. rewrite string_of_chars_length, length_rev.
  pose proof (drop_while_length (fun c => negb (Path.is_slash c))
                (rev (list_ascii_of_string p))) as H1.
  rewrite length_rev, chars_length in H1.
  destruct (forallb _ _); [lia|].
  pose proof (drop_while_length Path.is_slash
                (Path.drop_while (fun c => negb (Path.is_slash c))
                   (rev (list_ascii_of_string p)))). lia.
Qed.

Lemma ancestors_length fuel (d x : string) :
  In x (Path.ancestors fuel d) -> (String.length x <= String.length d)%nat.
Proof.
  revert d. induction fuel as [|fuel IH]; intros d; cbn; [tauto|].
  destruct (Text.is_empty d); [cbn; tauto|].
  destruct (String.eqb (Path.dirname d) d).
  - intros [<-|[]]. lia.
  - intros [<-|Hin]; [lia|]. apply IH in Hin.
    pose proof (dirname_length d). lia.
Qed.

(** A path that ends in a character other than a slash is longer than
    its directory. *)
Lemma dirname_shorter (q : string) c :
  Path.is_slash c = false ->
  (String.length (Path.dirname (q +:+ String c "")) < String.length (q +:+ String c ""))%nat.
Proof.
  intros Hc. unfold Path.dirname.
  rewrite string_of_chars_length, length_rev, <- (chars_length (q +:+ _)).
  rewrite chars_append, rev_app_distr. cbn [list_ascii_of_string rev app].
  cbn [Path.drop_while]. rewrite Hc. cbn [negb].
  rewrite length_app. cbn [length].
  pose proof (drop_while_length (fun c => negb (Path.is_slash c))
                (rev (list_ascii_of_string q))) as H1.
  rewrite length_rev in H1.
  destruct (forallb _ _); [lia|].
  pose proof (drop_while_length Path.is_slash
                (Path.drop_while (fun c => negb (Path.is_slash c))
                   (rev (list_ascii_of_string q)))). lia.
Qed.

(** A path below ["data/"] has a directory. *)
Lemma dirname_under_data (rest : string) :
  Text.is_empty (Path.dirname ("data/" +:+ rest)) = false.
Proof.
  unfold Path.dirname. rewrite chars_append, rev_app_distr.
  change (rev (list_ascii_of_string "data/"))
    with ("/"%char :: "a"%char :: ["t"; "a"; "d"]%char).
  destruct (drop_while_keeps (fun c => negb (Path.is_slash c))
              (rev (list_ascii_of_string rest)) ["a"; "t"; "a"; "d"]%char "/"%char
              eq_refl) as [pre ->].
  assert (Hmixed : forallb Path.is_slash (pre ++ "/"%char :: ["a"; "t"; "a"; "d"]%char)
                   = false).
  { rewrite forallb_app. apply andb_false_iff. right. reflexivity. }
  rewrite Hmixed.
  change (pre ++ "/"%char :: ["a"; "t"; "a"; "d"]%char)%list
    with (pre ++ "/"%char :: "a"%char :: ["t"; "a"; "d"]%char)%list.
  replace (pre ++ "/"%char :: "a"%char :: ["t"; "a"; "d"]%char)%list
    with ((pre ++ ["/"%char]) ++ "a"%char :: ["t"; "a"; "d"]%char)%list
    by (by rewrite <- app_assoc).
  destruct (drop_while_keeps Path.is_slash (pre ++ ["/"%char])
              ["t"; "a"; "d"]%char "a"%char eq_refl) as [pre' ->].
  rewrite rev_app_distr. reflexivity.
Qed.

Lemma file_name_dirname scrip_name exchange_name exchange_segment_name
    time_period from_date to_date :
  let file := file_name scrip_name exchange_name exchange_segment_name
                time_period from_date to_date in
  Text.is_empty (Path.dirname file) = false /\
  (String.length (Path.dirname file) < String.length file)%nat.
Proof.
  cbn zeta. split.
  - unfold file_name. apply dirname_under_data.
  - unfold file_name.
    set (q := "data/" +:+ scrip_name +:+ "/" +:+ scrip_name +:+ "_" +:+ exchange_name
              +:+ "_" +:+ exchange_segment_name +:+ "_" +:+ time_period +:+ "_"
              +:+ from_date +:+ "_to_" +:+ to_date +:+ ".cs").
    replace ("data/" +:+ scrip_name +:+ "/" +:+ scrip_name +:+ "_" +:+ exchange_name
             +:+ "_" +:+ exchange_segment_name +:+ "_" +:+ time_period +:+ "_"
             +:+ from_date +:+ "_to_" +:+ to_date +:+ ".csv")
      with (q +:+ String "v" "").
    + by apply dirname_shorter.
    + subst q. rewrite !append_assoc. reflexivity.
Qed.

(** ** Membership tests and dictionaries *)

Lemma mem_In (s : string) (l : list string) : Text.mem s l = true <-> In s l.
Proof.
  unfold Text.mem. rewrite existsb_exists. split.
  - intros (x & Hin & Heq). apply String.eqb_eq in Heq. by subst.
  - intros Hin. exists s. split; [assumption|apply String.eqb_refl].
Qed.

Lemma is_empty_true (s : string) : Text.is_empty s = true <-> s = "".
Proof. destruct s; cbn; split; congruence. Qed.

Lemma dict_set_In {V : Type} (k : Z) (v : V) (d : list (Z * V)) kv :
  In kv (dict_set k v d) -> kv = (k, v) \/ In kv d.
Proof.
  induction d as [|[k' v'] d IH]; cbn.
  - intros [<-|[]]. by left.
  - destruct (Z.eqb k' k); cbn; intros [<-|Hin]; auto.
    destruct (IH Hin); auto.
Qed.

Lemma dict_zip_In {V : Type} (keys : list Z) (values : list V) kv :
  In kv (dict_zip keys values) -> In kv (combine keys values).
Proof.
  unfold dict_zip.
  assert (H : forall l d, In kv (fold_left (fun d kv => dict_set (fst kv) (snd kv) d) l d)
                     -> In kv d \/ In kv l).
  { induction l as [|[k v] l IH]; cbn; intros d Hin; [by left|].
    destruct (IH _ Hin) as [Hd|Hl]; [|by right; right].
    apply dict_set_In in Hd as [->|Hd]; [right; by left|by left]. }
  intros Hin. by destruct (H _ _ Hin).
Qed.

Lemma Forall2_combine_In {A B : Type} (P : A -> B -> Prop) l k x y :
  Forall2 P l k -> In (x, y) (combine l k) -> P x y /\ In x l.
Proof.
  induction 1 as [|a b l k Hab _ IH]; cbn; [tauto|].
  intros [Heq|Hin].
  - injection Heq as <- <-. split; [assumption|by left].
  - destruct (IH Hin). split; [assumption|by right].
Qed.

Lemma Forall2_In_l {A B : Type} (P : A -> B -> Prop) l k y :
  Forall2 P l k -> In y k -> exists x, In x l /\ P x y.
Proof.
  induction 1 as [|a b l k Hab _ IH]; cbn; [tauto|].
  intros [<-|Hin].
  - exists a. split; [by left|assumption].
  - destruct (IH Hin) as (x & ? & ?). exists x. split; [by right|assumption].
Qed.

Section Properties.

Context {Row : Type}.
Variable date_of : Row -> option Row.

Implicit Types (w : @World Row) (name : string).


Lemma same_outside_sql_refl w : same_outside_sql w w.
Proof. repeat split. Qed.

Lemma same_outside_sql_trans w1 w2 w3 :
  same_outside_sql w1 w2 -> same_outside_sql w2 w3 -> same_outside_sql w1 w3.
Proof.
  intros (?&?&?&?&?) (?&?&?&?&?). repeat split; congruence.
Qed.

Lemma same_outside_sql_log q w : same_outside_sql w (log_query q w).
Proof. repeat split. Qed.

Lemma os_path_exists_same p w w' :
  files w' = files w -> dirs w' = dirs w ->
  os_path_exists p w' = os_path_exists p w.
Proof. intros Hf Hd. unfold os_path_exists. by rewrite Hf, Hd. Qed.

(** [get_scrip_code_by_name] returns the code of the first hit, and
    raises [TypeError] when there is none; it only touches the database. *)
Lemma get_scrip_code_by_name_run name w :
  exists w', same_outside_sql w w' /\
    get_scrip_code_by_name name w =
      (match first_hit (scrip_master w) (tiers name) with
       | Some r => Return (Some (Sql.ScripCode r))
       | None => Raise TypeError
       end, w').
Proof.
  unfold get_scrip_code_by_name, tiers, mbind, M_bind, execute, mret, M_ret, raise.
  cbn -[Sql.fetchone String.append].
  destruct (Sql.fetchone (Sql.SelectByName name "N") (scrip_master w)) as [r1|];
    cbn -[Sql.fetchone String.append].
  { eexists; split; [|reflexivity]. apply same_outside_sql_log. }
  destruct (Sql.fetchone (Sql.SelectByName name "B") (scrip_master w)) as [r2|];
    cbn -[Sql.fetchone String.append].
  { eexists; split; [|reflexivity]. repeat split. }
  destruct (Sql.fetchone (Sql.SelectByNameLike _ "N") (scrip_master w)) as [r3|];
    cbn -[Sql.fetchone String.append].
  { eexists; split; [|reflexivity]. repeat split. }
  destruct (Sql.fetchone (Sql.SelectByNameLike _ "B") (scrip_master w)) as [r4|];
    cbn -[Sql.fetchone String.append].
  { eexists; split; [|reflexivity]. repeat split. }
  eexists; split; [|reflexivity]. repeat split.
Qed.

(** In particular it never returns None. *)
Lemma get_scrip_code_by_name_not_none name w w' :
  get_scrip_code_by_name name w <> (Return None, w').
Proof.
  destruct (get_scrip_code_by_name_run name w) as (w1 & _ & ->).
  destruct (first_hit _ _); congruence.
Qed.

Lemma get_scrip_name_by_code_run code w :
  get_scrip_name_by_code code w =
    (Return ((fun r => (Sql.Name r, Sql.FullName r, Sql.Exch r))
               <$> Sql.fetchone (Sql.SelectByCode code) (scrip_master w)),
     log_query (Sql.SelectByCode code) w).
Proof. reflexivity. Qed.

(** The first loop of [get_historical_data] resolves the names from left
    to right and stops at the first one without a hit. *)
Lemma fetch_scrip_codes_run names acc w :
  exists w', same_outside_sql w w' /\
    fetch_scrip_codes names acc w =
      (match mapM (resolve_code (scrip_master w)) names with
       | Some codes => Return (acc ++ codes)%list
       | None => Raise TypeError
       end, w').
Proof.
  revert acc w. induction names as [|name names IH]; intros acc w.
  - exists w. split; [apply same_outside_sql_refl|]. cbn. by rewrite app_nil_r.
  - destruct (get_scrip_code_by_name_run name w) as (w1 & Hw1 & Hrun).
    cbn [fetch_scrip_codes]. unfold mbind at 1, M_bind at 1. rewrite Hrun.
    assert (Hcons : mapM (resolve_code (scrip_master w)) (name :: names) =
                    code ← resolve_code (scrip_master w) name;
                    codes ← mapM (resolve_code (scrip_master w)) names;
                    Some (code :: codes)) by reflexivity.
    rewrite Hcons.
    replace (resolve_code (scrip_master w) name)
      with (Sql.ScripCode <$> first_hit (scrip_master w) (tiers name)) by reflexivity.
    destruct (first_hit (scrip_master w) (tiers name)) as [r|].
    + destruct (IH (acc ++ [Sql.ScripCode r])%list w1) as (w2 & Hw2 & Hrest).
      exists w2. split; [eapply same_outside_sql_trans; eassumption|].
      rewrite Hrest. destruct Hw1 as (_ & -> & _).
      cbn [fmap option_fmap option_map mbind option_bind].
      destruct (mapM _ names); cbn [mbind option_bind]; [|reflexivity].
      by rewrite <- app_assoc.
    + exists w1. split; [assumption|reflexivity].
Qed.

(** The second loop looks every code up again for its canonical name. *)
Lemma correct_scrip_names_run codes acc w :
  exists r w', correct_scrip_names codes acc w = (r, w') /\
    same_outside_sql w w' /\
    match mapM (resolve_name (scrip_master w)) codes with
    | Some names => r = Return (acc ++ names)%list
    | None => exists code, r = Raise (NoScripName code)
    end.
Proof.
  revert acc w. induction codes as [|code codes IH]; intros acc w.
  - exists (Return acc), w. split; [reflexivity|].
    split; [apply same_outside_sql_refl|]. cbn. by rewrite app_nil_r.
  - cbn [correct_scrip_names]. unfold mbind at 1, M_bind at 1.
    rewrite get_scrip_name_by_code_run.
    assert (Hcons : mapM (resolve_name (scrip_master w)) (code :: codes) =
                    name ← resolve_name (scrip_master w) code;
                    names ← mapM (resolve_name (scrip_master w)) codes;
                    Some (name :: names)) by reflexivity.
    rewrite Hcons.
    replace (resolve_name (scrip_master w) code)
      with (Sql.Name <$> Sql.fetchone (Sql.SelectByCode code) (scrip_master w))
      by reflexivity.
    destruct (Sql.fetchone (Sql.SelectByCode code) (scrip_master w)) as [r|];
      cbn [fmap option_fmap option_map mbind option_bind].
    + destruct (IH (acc ++ [Sql.Name r])%list (log_query (Sql.SelectByCode code) w))
        as (res & w2 & Hrun & Hw2 & Hres).
      exists res, w2. split; [exact Hrun|]. split.
      { eapply same_outside_sql_trans; [apply same_outside_sql_log|eassumption]. }
      cbn [scrip_master log_query] in Hres.
      destruct (mapM _ codes); cbn [mbind option_bind]; [|exact Hres].
      by rewrite Hres, <- app_assoc.
    + exists (Raise (NoScripName code)), (log_query (Sql.SelectByCode code) w).
      split; [reflexivity|]. split; [apply same_outside_sql_log|]. by exists code.
Qed.

Lemma validate_run time_period exchange exchange_segment w :
  validate_exchange_segment_and_time time_period exchange exchange_segment w =
    (if negb (Text.mem time_period time_list) then Raise InvalidTimeFrame
     else if negb (has_key exchange exchange_map) then Raise InvalidExchange
     else if negb (has_key exchange_segment exchange_segment_map)
          then Raise InvalidExchangeSegment
     else Return tt, w).
Proof.
  unfold validate_exchange_segment_and_time, mbind, M_bind, mret, M_ret, raise.
  destruct (Text.mem time_period time_list); cbn [negb]; [|reflexivity].
  destruct (has_key exchange exchange_map); cbn [negb]; [|reflexivity].
  destruct (has_key exchange_segment exchange_segment_map); reflexivity.
Qed.


(** Past its guards, [get_historical_data] resolves every name, then
    every code, and only then enters one of the two download loops. *)
Lemma get_historical_data_run exchange exchange_segment scrip_names
    time_period from_date to_date w :
  arguments_missing exchange exchange_segment scrip_names time_period
    from_date to_date = false ->
  is_Some (client w) ->
  values_valid time_period exchange exchange_segment = true ->
  exists w1, same_outside_sql w w1 /\
    match mapM (resolve_code (scrip_master w)) scrip_names with
    | None =>
        get_historical_data date_of exchange exchange_segment scrip_names
          time_period from_date to_date w = (Raise TypeError, w1)
    | Some codes =>
        match mapM (resolve_name (scrip_master w)) codes with
        | None =>
            exists code,
              get_historical_data date_of exchange exchange_segment scrip_names
                time_period from_date to_date w = (Raise (NoScripName code), w1)
        | Some names =>
            let exchange_name := get_default exchange exchange exchange_map in
            let exchange_segment_name :=
              get_default exchange_segment exchange_segment exchange_segment_map in
            get_historical_data date_of exchange exchange_segment scrip_names
              time_period from_date to_date w =
            (if String.eqb time_period "1d"
             then daily_loop date_of exchange exchange_segment time_period
                    from_date to_date exchange_name exchange_segment_name
                    (dict_zip codes names)
             else get_historical_intraday_data exchange exchange_segment
                    (Some (dict_zip codes names)) time_period from_date to_date) w1
        end
    end.
Proof.
  intros Hargs [api Hclient] Hvalid.
  unfold get_historical_data. unfold arguments_missing in Hargs. rewrite Hargs, Hclient.
  unfold mbind, M_bind. rewrite validate_run.
  unfold values_valid in Hvalid.
  apply andb_true_iff in Hvalid as [Hvalid Hseg].
  apply andb_true_iff in Hvalid as [Htime Hexch].
  rewrite Htime, Hexch, Hseg. cbn [negb].
  destruct (fetch_scrip_codes_run scrip_names [] w) as (w1 & Hw1 & Hcodes).
  rewrite Hcodes.
  destruct (mapM (resolve_code (scrip_master w)) scrip_names) as [codes|] eqn:Hm.
  2:{ exists w1. split; [assumption|reflexivity]. }
  cbn [app]. apply length_mapM in Hm.
  rewrite Hm, Nat.eqb_refl. cbn [negb mret M_ret].
  destruct (correct_scrip_names_run codes [] w1) as (r & w2 & Hrun & Hw2 & Hr).
  rewrite Hrun. destruct Hw1 as (Hc1 & Ht1 & Hrest1). rewrite Ht1 in Hr.
  exists w2. split.
  { eapply same_outside_sql_trans; [|eassumption]. repeat split; tauto. }
  destruct (mapM (resolve_name (scrip_master w)) codes) as [names|].
  - subst r. reflexivity.
  - destruct Hr as [code ->]. by exists code.
Qed.

(** Before that, nothing at all has happened. *)
Lemma get_historical_data_rejects exchange exchange_segment scrip_names
    time_period from_date to_date w :
  arguments_missing exchange exchange_segment scrip_names time_period
    from_date to_date = true \/
  client w = None \/
  values_valid time_period exchange exchange_segment = false ->
  get_historical_data date_of exchange exchange_segment scrip_names
    time_period from_date to_date w =
  (Raise (if arguments_missing exchange exchange_segment scrip_names time_period
               from_date to_date then ArgumentsMissing
          else if client w is None then NotConnected
          else if negb (Text.mem time_period time_list) then InvalidTimeFrame
          else if negb (has_key exchange exchange_map) then InvalidExchange
          else InvalidExchangeSegment), w).
Proof.
  intros H. unfold get_historical_data.
  fold (arguments_missing exchange exchange_segment scrip_names time_period
          from_date to_date).
  destruct (arguments_missing _ _ _ _ _ _); [reflexivity|].
  destruct (client w) as [api|]; [|reflexivity].
  destruct H as [H|[H|H]]; try discriminate.
  unfold mbind, M_bind. rewrite validate_run.
  unfold values_valid in H.
  destruct (Text.mem time_period time_list); cbn [negb]; [|reflexivity].
  destruct (has_key exchange exchange_map); cbn [negb]; [|reflexivity].
  destruct (has_key exchange_segment exchange_segment_map); cbn [negb];
    [discriminate|reflexivity].
Qed.

(** ** Writing an artifact *)

Lemma save_to_csv_artifact (df : list Row) scrip_name exchange_name
    exchange_segment_name time_period from_date to_date w :
  let file := file_name scrip_name exchange_name exchange_segment_name
                time_period from_date to_date in
  os_path_exists file w = false ->
  exists w', save_to_csv df file w = (Return tt, w') /\
    files w' = <[file := df]> (files w) /\ fetched w' = fetched w /\
    executed w' = executed w /\ client w' = client w /\
    scrip_master w' = scrip_master w.
Proof.
  cbn zeta. set (file := file_name _ _ _ _ _ _). intros Hex.
  destruct (file_name_dirname scrip_name exchange_name exchange_segment_name
              time_period from_date to_date) as [Hdir Hlen].
  fold file in Hdir, Hlen.
  unfold os_path_exists in Hex. apply orb_false_iff in Hex as [_ Hnodir].
  apply bool_decide_eq_false in Hnodir.
  unfold save_to_csv, mbind, M_bind.
  destruct (os_path_exists (Path.dirname file) w).
  - cbn [mret M_ret]. unfold to_csv. rewrite bool_decide_eq_false_2 by assumption.
    eexists. split; [reflexivity|]. repeat split.
  - unfold os_makedirs. rewrite Hdir. unfold to_csv. cbn [dirs add_dirs].
    rewrite bool_decide_eq_false_2.
    + eexists. split; [reflexivity|]. repeat split.
    + rewrite elem_of_union, elem_of_list_to_set, list_elem_of_In.
      intros [Hin|Hin]; [|contradiction].
      apply ancestors_length in Hin. lia.
Qed.

(** ** The chunk loop *)

Lemma frames_of_app (l1 l2 : list (FetchCall * option (list Row))) :
  frames_of (l1 ++ l2) = (frames_of l1 ++ frames_of l2)%list.
Proof.
  induction l1 as [|[c [df|]] l1 IH]; cbn; [reflexivity| |exact IH].
  destruct (is_empty_frame df); cbn; by rewrite IH.
Qed.

(** With fuel for one round per day of the range the loop finishes; it
    only talks to the broker, and returns the frames of its calls. *)
Lemma download_chunks_run fuel exchange exchange_segment scrip_code scrip_name
    time_period current_date end_date acc w :
  (Z.to_nat (end_date - current_date) <= fuel)%nat ->
  exists calls r w1,
    download_chunks fuel exchange exchange_segment scrip_code scrip_name
      time_period current_date end_date acc w = (r, w1) /\
    fetched w1 = (rev calls ++ fetched w)%list /\
    files w1 = files w /\ dirs w1 = dirs w /\ executed w1 = executed w /\
    client w1 = client w /\ scrip_master w1 = scrip_master w /\
    match r with
    | Return frames => frames = (acc ++ frames_of calls)%list
    | Raise _ => True
    | Unfinished => False
    end.
Proof.
  revert current_date acc w.
  induction fuel as [|fuel IH]; intros current_date acc w Hfuel.
  - cbn [download_chunks]. destruct (current_date <? end_date) eqn:Hlt.
    { apply Z.ltb_lt in Hlt. lia. }
    exists [], (Return acc), w. cbn. rewrite app_nil_r. repeat split.
  - cbn [download_chunks]. destruct (current_date <? end_date) eqn:Hlt.
    2:{ exists [], (Return acc), w. cbn. rewrite app_nil_r. repeat split. }
    apply Z.ltb_lt in Hlt.
    destruct (Datetime.add_days current_date 180) as [limit|] eqn:Hlimit.
    2:{ exists [], (Raise OverflowError), w. repeat split. }
    unfold mbind at 1, M_bind at 1. unfold historical_data at 1.
    destruct (client w) as [api|] eqn:Hclient.
    2:{ exists [], (Raise AttributeError), w. repeat split. assumption. }
    set (call := {| call_exchange := exchange; call_segment := exchange_segment;
                    call_code := scrip_code; call_time := time_period;
                    call_from := Datetime.strftime current_date;
                    call_to := Datetime.strftime (Z.min end_date limit) |}).
    cbn zeta.
    destruct (api (fetched w) call) as [df|] eqn:Hreply.
    2:{ exists [(call, None)], (Raise (CouldNotFetch scrip_name)),
          (log_call call None w). repeat split. assumption. }
    destruct (Datetime.add_days (Z.min end_date limit) 1) as [next|] eqn:Hnext.
    2:{ exists [(call, Some df)], (Raise OverflowError), (log_call call (Some df) w).
        repeat split. assumption. }
    assert (Hfuel' : (Z.to_nat (end_date - next) <= fuel)%nat).
    { unfold Datetime.add_days in Hlimit, Hnext.
      destruct (_ && _) in Hlimit; [|discriminate].
      destruct (_ && _) in Hnext; [|discriminate].
      injection Hlimit as <-. injection Hnext as <-. lia. }
    destruct (IH next (if is_empty_frame df then acc else (acc ++ [df])%list)
                (log_call call (Some df) w) Hfuel')
      as (calls & r & w1 & Hrun & Hcalls & Hfiles & Hdirs & Hexec & Hcl & Htbl & Hr).
    exists ((call, Some df) :: calls), r, w1.
    split; [exact Hrun|]. split.
    { rewrite Hcalls. cbn [fetched log_call rev]. by rewrite <- app_assoc. }
    cbn [files dirs executed client scrip_master log_call] in Hfiles, Hdirs, Hexec, Hcl, Htbl.
    rewrite Hclient in Hcl.
    repeat (split; [assumption|]).
    destruct r as [frames| |]; [|exact I|exact Hr].
    rewrite Hr. cbn [frames_of].
    destruct (is_empty_frame df); [reflexivity|]. by rewrite <- app_assoc.
Qed.

(** ** The intraday path *)

Lemma intraday_one_empty_range exchange exchange_segment time_period from_date
    to_date exchange_name exchange_segment_name scrip_code scrip_name
    start_date end_date w :
  os_path_exists (file_name scrip_name exchange_name exchange_segment_name
                    time_period from_date to_date) w = false ->
  Datetime.strptime from_date = Some start_date ->
  Datetime.strptime to_date = Some end_date ->
  end_date <= start_date ->
  intraday_one exchange exchange_segment time_period from_date to_date
    exchange_name exchange_segment_name scrip_code scrip_name w =
  (Raise (NoDataFound scrip_name), w).
Proof.
  intros Hex Hfrom Hto Hle. unfold intraday_one. rewrite Hex, Hfrom, Hto.
  replace (Z.to_nat (end_date - start_date)) with O by lia.
  unfold mbind, M_bind. cbn [download_chunks].
  destruct (start_date <? end_date) eqn:Hlt; [apply Z.ltb_lt in Hlt; lia|].
  reflexivity.
Qed.

(** C10: an intraday request whose start date is not before its end date
    never enters the chunk loop; for a security without an artifact the
    call of [get_historical_intraday_data] leaves the world untouched
    (so no broker call was made) and raises "No data found". *)
Theorem intraday_empty_range_fails exchange exchange_segment time_period
    from_date to_date scrip_code scrip_name rest start_date end_date w :
  Text.mem time_period ["1m"; "5m"; "10m"; "15m"; "30m"; "60m"] = true ->
  os_path_exists
    (file_name scrip_name (get_default exchange exchange exchange_map)
       (get_default exchange_segment exchange_segment exchange_segment_map)
       time_period from_date to_date) w = false ->
  Datetime.strptime from_date = Some start_date ->
  Datetime.strptime to_date = Some end_date ->
  end_date <= start_date ->
  get_historical_intraday_data exchange exchange_segment
    (Some ((scrip_code, scrip_name) :: rest)) time_period from_date to_date w =
  (Raise (NoDataFound scrip_name), w).
Proof.
  intros Htime Hex Hfrom Hto Hle.
  unfold get_historical_intraday_data. rewrite Htime. cbn [negb].
  unfold intraday_loop. cbn [for_each fst snd]. unfold mbind, M_bind.
  by rewrite (intraday_one_empty_range _ _ _ _ _ _ _ _ _ start_date end_date).
Qed.

(** The chunks follow each other day by day, span at most 180 days, and
    stop at [end_date] or on the day before it: the loop guard is a
    strict comparison, so a cursor that lands on [end_date] itself ends
    the loop with that day unvisited. *)
Lemma chunks_chained fuel current_date end_date :
  (Z.to_nat (end_date - current_date) <= fuel)%nat ->
  chained current_date end_date (chunks fuel current_date end_date) /\
  (current_date < end_date ->
   end_date <= uncovered current_date (chunks fuel current_date end_date)
            <= end_date + 1).
Proof.
  revert current_date. induction fuel as [|fuel IH]; intros current_date Hfuel.
  - cbn [chunks]. destruct (current_date <? end_date) eqn:Hlt.
    + apply Z.ltb_lt in Hlt. lia.
    + cbn. split; [exact I|]. apply Z.ltb_ge in Hlt. lia.
  - cbn [chunks]. destruct (current_date <? end_date) eqn:Hlt.
    2:{ cbn. split; [exact I|]. apply Z.ltb_ge in Hlt. lia. }
    apply Z.ltb_lt in Hlt. cbn [chained uncovered].
    destruct (IH (Z.min end_date (current_date + 180) + 1)) as [Hchain Hcover]; [lia|].
    split.
    + repeat split; try lia. exact Hchain.
    + intros _.
      destruct (Z.lt_ge_cases (Z.min end_date (current_date + 180) + 1) end_date)
        as [Hmore|Hdone].
      * apply Hcover. exact Hmore.
      * destruct fuel as [|fuel']; cbn [chunks];
          (destruct (_ <? end_date) eqn:Hlt'; [apply Z.ltb_lt in Hlt'; lia|]);
          cbn [uncovered]; lia.
Qed.

(** The calls the loop makes are for those chunks, in order: a prefix of
    them when the loop is aborted, all of them when it returns. *)
Lemma download_chunks_calls fuel exchange exchange_segment scrip_code scrip_name
    time_period current_date end_date acc w :
  exists calls rest r w1,
    download_chunks fuel exchange exchange_segment scrip_code scrip_name
      time_period current_date end_date acc w = (r, w1) /\
    fetched w1 = (rev calls ++ fetched w)%list /\
    map chunk_dates (chunks fuel current_date end_date) =
      (map call_dates calls ++ rest)%list /\
    (forall frames, r = Return frames -> rest = []).
Proof.
  revert current_date acc w.
  induction fuel as [|fuel IH]; intros current_date acc w.
  - cbn [download_chunks chunks]. destruct (current_date <? end_date).
    + by eexists [], [], _, _.
    + by eexists [], [], _, _.
  - cbn [download_chunks chunks]. destruct (current_date <? end_date).
    2:{ by eexists [], [], _, _. }
    destruct (Datetime.add_days current_date 180) as [limit|] eqn:Hlimit.
    2:{ eexists [], _, _, _. split; [reflexivity|].
        split; [reflexivity|]. split; [reflexivity|]. discriminate. }
    assert (limit = current_date + 180) as ->.
    { unfold Datetime.add_days in Hlimit.
      destruct (_ && _) in Hlimit; [|discriminate]. by injection Hlimit as <-. }
    unfold mbind at 1, M_bind at 1. unfold historical_data at 1.
    destruct (client w) as [api|].
    2:{ eexists [], _, _, _. split; [reflexivity|].
        split; [reflexivity|]. split; [reflexivity|]. discriminate. }
    set (call := {| call_exchange := exchange; call_segment := exchange_segment;
                    call_code := scrip_code; call_time := time_period;
                    call_from := Datetime.strftime current_date;
                    call_to := Datetime.strftime
                                 (Z.min end_date (current_date + 180)) |}).
    cbn zeta.
    destruct (api (fetched w) call) as [df|].
    2:{ eexists [(call, None)], _, _, _. split; [reflexivity|].
        split; [reflexivity|]. split; [reflexivity|]. discriminate. }
    destruct (Datetime.add_days (Z.min end_date (current_date + 180)) 1)
      as [next|] eqn:Hnext.
    2:{ eexists [(call, Some df)], _, _, _. split; [reflexivity|].
        split; [reflexivity|]. split; [reflexivity|]. discriminate. }
    assert (next = Z.min end_date (current_date + 180) + 1) as ->.
    { unfold Datetime.add_days in Hnext.
      destruct (_ && _) in Hnext; [|discriminate]. by injection Hnext as <-. }
    destruct (IH (Z.min end_date (current_date + 180) + 1)
                (if is_empty_frame df then acc else (acc ++ [df])%list)
                (log_call call (Some df) w))
      as (calls & rest & r & w1 & Hrun & Hcalls & Hchunks & Hret).
    exists ((call, Some df) :: calls), rest, r, w1.
    split; [exact Hrun|]. split.
    { rewrite Hcalls. cbn [fetched log_call rev]. by rewrite <- app_assoc. }
    split; [|exact Hret].
    cbn [map app]. rewrite Hchunks. reflexivity.
Qed.

(** What the fetch of one security does, read off the run of its chunk
    loop: the loop always finishes; its frames are the non-empty replies
    in call order; none, and the fetch fails with "No data found"; some,
    and their concatenation is written as the artifact, the only file
    that changes; an aborted loop fails the fetch with its exception. *)
Lemma intraday_one_run exchange exchange_segment time_period from_date to_date
    exchange_name exchange_segment_name scrip_code scrip_name start_date end_date w :
  let file := file_name scrip_name exchange_name exchange_segment_name
                time_period from_date to_date in
  let run := intraday_one exchange exchange_segment time_period from_date to_date
               exchange_name exchange_segment_name scrip_code scrip_name w in
  os_path_exists file w = false ->
  Datetime.strptime from_date = Some start_date ->
  Datetime.strptime to_date = Some end_date ->
  exists calls r w1,
    download_chunks (Z.to_nat (end_date - start_date)) exchange exchange_segment
      scrip_code scrip_name time_period start_date end_date [] w = (r, w1) /\
    fetched w1 = (rev calls ++ fetched w)%list /\
    files w1 = files w /\
    match r with
    | Return frames =>
        frames = frames_of calls /\
        match frames with
        | [] => run = (Raise (NoDataFound scrip_name), w1)
        | _ :: _ =>
            exists w2, run = (Return tt, w2) /\
              files w2 = <[file := concat frames]> (files w) /\
              fetched w2 = fetched w1
        end
    | Raise e => run = (Raise e, w1)
    | Unfinished => False
    end.
Proof.
  cbn zeta. intros Hex Hfrom Hto.
  destruct (download_chunks_run (Z.to_nat (end_date - start_date)) exchange
              exchange_segment scrip_code scrip_name time_period start_date
              end_date [] w (Nat.le_refl _))
    as (calls & r & w1 & Hrun & Hcalls & Hfiles & Hdirs & _ & _ & _ & Hr).
  exists calls, r, w1. split; [exact Hrun|]. split; [exact Hcalls|].
  split; [exact Hfiles|].
  unfold intraday_one. rewrite Hex, Hfrom, Hto. unfold mbind, M_bind. rewrite Hrun.
  destruct r as [frames|e|]; [|reflexivity|exact Hr].
  cbn [app] in Hr. split; [exact Hr|].
  destruct frames as [|frame frames]; [reflexivity|].
  cbn [length Nat.eqb].
  destruct (save_to_csv_artifact (concat (frame :: frames)) scrip_name exchange_name
              exchange_segment_name time_period from_date to_date w1)
    as (w2 & Hsave & Hfiles2 & Hfetched2 & _).
  { rewrite (os_path_exists_same _ w w1); assumption. }
  exists w2. split; [exact Hsave|]. split; [|exact Hfetched2].
  by rewrite Hfiles2, Hfiles.
Qed.

Lemma calls_between_app (calls : list (FetchCall * option (list Row))) w w' :
  fetched w' = (rev calls ++ fetched w)%list -> calls_between w w' = calls.
Proof.
  intros H. unfold calls_between. rewrite H, length_app.
  replace (length (rev calls) + length (fetched w) - length (fetched w))%nat
    with (length (rev calls)) by lia.
  by rewrite take_app_length, rev_involutive.
Qed.

(** A reply of None ends the loop: it is the answer to the last call
    the loop made, and the loop raises "Could not fetch historical
    data". *)
Lemma download_chunks_none_aborts fuel exchange exchange_segment scrip_code
    scrip_name time_period current_date end_date acc w :
  exists calls r w1,
    download_chunks fuel exchange exchange_segment scrip_code scrip_name
      time_period current_date end_date acc w = (r, w1) /\
    fetched w1 = (rev calls ++ fetched w)%list /\
    forall c, In c calls -> snd c = None ->
      r = Raise (CouldNotFetch scrip_name) /\ last calls = Some c.
Proof.
  revert current_date acc w.
  induction fuel as [|fuel IH]; intros current_date acc w.
  - cbn [download_chunks]. destruct (current_date <? end_date);
      eexists [], _, _; (split; [reflexivity|]); (split; [reflexivity|]);
      intros c [].
  - cbn [download_chunks]. destruct (current_date <? end_date).
    2:{ eexists [], _, _. split; [reflexivity|]. split; [reflexivity|]. intros c []. }
    destruct (Datetime.add_days current_date 180) as [limit|].
    2:{ eexists [], _, _. split; [reflexivity|]. split; [reflexivity|]. intros c []. }
    unfold mbind at 1, M_bind at 1. unfold historical_data at 1.
    destruct (client w) as [api|].
    2:{ eexists [], _, _. split; [reflexivity|]. split; [reflexivity|]. intros c []. }
    set (call := {| call_exchange := exchange; call_segment := exchange_segment;
                    call_code := scrip_code; call_time := time_period;
                    call_from := Datetime.strftime current_date;
                    call_to := Datetime.strftime (Z.min end_date limit) |}).
    cbn zeta.
    destruct (api (fetched w) call) as [df|].
    2:{ eexists [(call, None)], _, _. split; [reflexivity|]. split; [reflexivity|].
        intros c [<-|[]] _. split; reflexivity. }
    destruct (Datetime.add_days (Z.min end_date limit) 1) as [next|].
    2:{ eexists [(call, Some df)], _, _. split; [reflexivity|]. split; [reflexivity|].
        intros c [<-|[]] Hnone; discriminate Hnone. }
    destruct (IH next (if is_empty_frame df then acc else (acc ++ [df])%list)
                (log_call call (Some df) w))
      as (calls & r & w1 & Hrun & Hcalls & Hnone).
    exists ((call, Some df) :: calls), r, w1.
    split; [exact Hrun|]. split.
    { rewrite Hcalls. cbn [fetched log_call rev]. by rewrite <- app_assoc. }
    intros c [<-|Hin] Hc; [discriminate Hc|].
    destruct (Hnone c Hin Hc) as [-> Hlast]. split; [reflexivity|].
    destruct calls as [|c' calls]; [destruct Hin|]. exact Hlast.
Qed.

(** C6, amended: for a security without an artifact, when the chunk
    loop runs to its end the frames decide the outcome: with no frame
    the fetch fails with "No data found" and writes nothing, otherwise
    the frames, concatenated in call order, are written as the one
    artifact.  When a chunk call is answered None the loop is aborted:
    that call is the last one made, the fetch fails with "Could not
    fetch historical data" and nothing is written, whatever the earlier
    chunks produced.  The loop always finishes, and any other exception
    that ends it fails the fetch likewise with nothing written. *)
Theorem intraday_artifact exchange exchange_segment time_period from_date to_date
    exchange_name exchange_segment_name scrip_code scrip_name start_date end_date w :
  let run := intraday_one exchange exchange_segment time_period from_date to_date
               exchange_name exchange_segment_name scrip_code scrip_name w in
  os_path_exists (file_name scrip_name exchange_name exchange_segment_name
                    time_period from_date to_date) w = false ->
  Datetime.strptime from_date = Some start_date ->
  Datetime.strptime to_date = Some end_date ->
  exists r w1,
    download_chunks (Z.to_nat (end_date - start_date)) exchange exchange_segment
      scrip_code scrip_name time_period start_date end_date [] w = (r, w1) /\
    (forall c, In c (calls_between w w1) -> snd c = None ->
       last (calls_between w w1) = Some c /\
       run = (Raise (CouldNotFetch scrip_name), w1) /\
       files w1 = files w) /\
    match r with
    | Return _ =>
        Forall (fun c => is_Some (snd c)) (calls_between w w1) /\
        frames_decide_outcome exchange exchange_segment time_period from_date
          to_date exchange_name exchange_segment_name scrip_code scrip_name w
    | Raise e => run = (Raise e, w1) /\ files w1 = files w
    | Unfinished => False
    end.
Proof.
  cbn zeta. intros Hex Hfrom Hto.
  destruct (intraday_one_run exchange exchange_segment time_period from_date to_date
              exchange_name exchange_segment_name scrip_code scrip_name
              start_date end_date w Hex Hfrom Hto)
    as (calls & r & w1 & Hrun & Hcalls & Hfiles & Hr).
  destruct (download_chunks_none_aborts (Z.to_nat (end_date - start_date)) exchange
              exchange_segment scrip_code scrip_name time_period start_date
              end_date [] w) as (calls' & r' & w1' & Hrun' & Hcalls' & Hnone).
  rewrite Hrun in Hrun'. injection Hrun' as <- <-.
  pose proof (calls_between_app calls w w1 Hcalls) as Hbetween.
  pose proof (calls_between_app calls' w w1 Hcalls') as Hbetween'.
  assert (calls' = calls) as -> by congruence. clear Hbetween' Hcalls'.
  exists r, w1. split; [exact Hrun|]. rewrite Hbetween. split.
  { intros c Hin Hc. destruct (Hnone c Hin Hc) as [-> Hlast].
    split; [exact Hlast|]. split; [exact Hr|exact Hfiles]. }
  destruct r as [frames|e|]; [|by split|exact Hr].
  split.
  { apply Forall_forall. intros c Hin. destruct (snd c) as [df|] eqn:Hc; [by eexists|].
    apply list_elem_of_In in Hin. destruct (Hnone c Hin Hc) as [Habs _].
    discriminate Habs. }
  destruct Hr as [-> Hr]. unfold frames_decide_outcome. cbn zeta.
  destruct (frames_of calls) as [|frame frames] eqn:Hframes.
  - rewrite Hr. cbn [fst snd]. rewrite Hbetween, Hframes. by split.
  - destruct Hr as (w2 & Hone & Hfiles2 & Hfetched2). rewrite Hone. cbn [fst snd].
    rewrite (calls_between_app calls) by (by rewrite Hfetched2).
    rewrite Hframes. by split.
Qed.

(** ** The daily path *)

Lemma for_each_cons {A : Type} (body : A -> M unit) (x : A) (l : list A) w :
  for_each body (x :: l) w =
  match body x w with
  | (Return _, w') => for_each body l w'
  | (Raise e, w') => (Raise e, w')
  | (Unfinished, w') => (Unfinished, w')
  end.
Proof. reflexivity. Qed.

Lemma daily_one_run exchange exchange_segment time_period from_date to_date
    exchange_name exchange_segment_name scrip_code scrip_name api w :
  let file := file_name scrip_name exchange_name exchange_segment_name
                time_period from_date to_date in
  let call := {| call_exchange := exchange; call_segment := exchange_segment;
                 call_code := scrip_code; call_time := time_period;
                 call_from := from_date; call_to := to_date |} in
  let reply := api (fetched w) call in
  let w1 := log_call call reply w in
  client w = Some api ->
  os_path_exists file w = false ->
  daily_one date_of exchange exchange_segment time_period from_date to_date
    exchange_name exchange_segment_name scrip_code scrip_name w =
  match reply with
  | None => (Raise (CouldNotFetch scrip_name), w1)
  | Some df =>
      if is_empty_frame df then (Return tt, w1)
      else match apply_date_of date_of df with
           | Some df' => save_to_csv df' file w1
           | None => (Raise ValueError, w1)
           end
  end.
Proof.
  cbn zeta. intros Hclient Hex. unfold daily_one. rewrite Hex.
  unfold mbind, M_bind, historical_data. rewrite Hclient. cbn zeta.
  destruct (api (fetched w) _) as [df|]; [|reflexivity].
  destruct (is_empty_frame df); [reflexivity|].
  destruct (apply_date_of date_of df); reflexivity.
Qed.

(** C7: on the daily path a security without an artifact is fetched
    with exactly one broker call, for the whole range.  When the broker
    answers None the loop stops there with "Could not fetch historical
    data", nothing written and the remaining securities untouched; when
    it answers an empty frame nothing is written and the loop goes on
    with the next security; in every case that one call is the only one
    made for the security. *)
Theorem daily_fetch exchange exchange_segment time_period from_date to_date
    exchange_name exchange_segment_name scrip_code scrip_name rest api w :
  let file := file_name scrip_name exchange_name exchange_segment_name
                time_period from_date to_date in
  let loop := daily_loop date_of exchange exchange_segment time_period from_date
                to_date exchange_name exchange_segment_name in
  let call := {| call_exchange := exchange; call_segment := exchange_segment;
                 call_code := scrip_code; call_time := time_period;
                 call_from := from_date; call_to := to_date |} in
  let reply := api (fetched w) call in
  let w1 := log_call call reply w in
  client w = Some api ->
  os_path_exists file w = false ->
  match reply with
  | None => loop ((scrip_code, scrip_name) :: rest) w =
            (Raise (CouldNotFetch scrip_name), w1)
  | Some [] => loop ((scrip_code, scrip_name) :: rest) w = loop rest w1
  | Some (_ :: _) =>
      exists r w2,
        daily_one date_of exchange exchange_segment time_period from_date to_date
          exchange_name exchange_segment_name scrip_code scrip_name w = (r, w2) /\
        fetched w2 = fetched w1
  end.
Proof.
  cbn zeta. intros Hclient Hex.
  unfold daily_loop. rewrite for_each_cons. cbn [fst snd].
  rewrite (daily_one_run _ _ _ _ _ _ _ _ _ api) by assumption.
  destruct (api (fetched w) _) as [[|row df]|]; [reflexivity| |reflexivity].
  cbn [is_empty_frame].
  destruct (apply_date_of date_of (row :: df)) as [df'|].
  - edestruct (save_to_csv_artifact df' scrip_name exchange_name
                 exchange_segment_name time_period from_date to_date)
      as (w2 & Hsave & _ & Hfetched2 & _);
      [|eexists _, w2; split; [exact Hsave|exact Hfetched2]].
    rewrite <- Hex. by apply os_path_exists_same.
  - eexists _, _. split; reflexivity.
Qed.

(** ** Securities that are already on disk *)

Lemma daily_loop_skips exchange exchange_segment time_period from_date to_date
    exchange_name exchange_segment_name scrips w :
  (forall kv, In kv scrips ->
     os_path_exists (file_name (snd kv) exchange_name exchange_segment_name
                       time_period from_date to_date) w = true) ->
  daily_loop date_of exchange exchange_segment time_period from_date to_date
    exchange_name exchange_segment_name scrips w = (Return tt, w).
Proof.
  unfold daily_loop. induction scrips as [|kv scrips IH]; intros Hall; [reflexivity|].
  rewrite for_each_cons. unfold daily_one at 1.
  rewrite (Hall kv) by (by left). apply IH. intros kv' Hin. apply Hall. by right.
Qed.

Lemma intraday_loop_skips exchange exchange_segment time_period from_date to_date
    exchange_name exchange_segment_name scrips w :
  (forall kv, In kv scrips ->
     os_path_exists (file_name (snd kv) exchange_name exchange_segment_name
                       time_period from_date to_date) w = true) ->
  intraday_loop exchange exchange_segment time_period from_date to_date
    exchange_name exchange_segment_name scrips w = (Return tt, w).
Proof.
  unfold intraday_loop. induction scrips as [|kv scrips IH]; intros Hall; [reflexivity|].
  rewrite for_each_cons. unfold intraday_one at 1.
  rewrite (Hall kv) by (by left). apply IH. intros kv' Hin. apply Hall. by right.
Qed.

(** C5: when the artifact of every requested security is already on
    disk, [get_historical_data] makes no broker call and writes no file,
    on the daily path and on the intraday path alike. *)
Theorem existing_artifacts_no_fetch exchange exchange_segment scrip_names
    time_period from_date to_date w :
  (forall name file,
     In name scrip_names ->
     artifact (scrip_master w) exchange exchange_segment time_period from_date
       to_date name = Some file ->
     os_path_exists file w = true) ->
  exists r w',
    get_historical_data date_of exchange exchange_segment scrip_names
      time_period from_date to_date w = (r, w') /\
    fetched w' = fetched w /\ files w' = files w.
Proof.
  intros Hall.
  destruct (arguments_missing exchange exchange_segment scrip_names time_period
              from_date to_date) eqn:Hargs.
  { eexists _, w. split; [apply get_historical_data_rejects; by left|]. by split. }
  destruct (client w) as [api|] eqn:Hclient.
  2:{ eexists _, w. split; [apply get_historical_data_rejects; right; by left|].
      by split. }
  destruct (values_valid time_period exchange exchange_segment) eqn:Hvalid.
  2:{ eexists _, w. split; [apply get_historical_data_rejects; right; by right|].
      by split. }
  destruct (get_historical_data_run exchange exchange_segment scrip_names
              time_period from_date to_date w Hargs)
    as (w1 & (Hc & Ht & Hfe & Hfi & Hdi) & Hrun);
    [by rewrite Hclient|assumption|].
  destruct (mapM (resolve_code (scrip_master w)) scrip_names) as [codes|] eqn:Hcodes.
  2:{ eexists _, w1. split; [exact Hrun|]. by split. }
  destruct (mapM (resolve_name (scrip_master w)) codes) as [names|] eqn:Hnames.
  2:{ destruct Hrun as [code Hrun]. eexists _, w1. split; [exact Hrun|]. by split. }
  cbn zeta in Hrun.
  assert (Hskip : forall kv, In kv (dict_zip codes names) ->
            os_path_exists
              (file_name (snd kv) (get_default exchange exchange exchange_map)
                 (get_default exchange_segment exchange_segment exchange_segment_map)
                 time_period from_date to_date) w1 = true).
  { intros [code cname] Hin. apply dict_zip_In in Hin.
    apply mapM_Some_1 in Hcodes, Hnames.
    destruct (Forall2_combine_In _ _ _ _ _ Hnames Hin) as [Hname Hcode].
    destruct (Forall2_In_l _ _ _ _ Hcodes Hcode) as (name & Hreq & Hres).
    rewrite (os_path_exists_same _ w w1) by assumption.
    apply (Hall name); [assumption|].
    unfold artifact. rewrite Hres. cbn [mbind option_bind]. rewrite Hname.
    reflexivity. }
  destruct (String.eqb time_period "1d").
  - exists (Return tt), w1. split; [|by split].
    rewrite Hrun. by apply daily_loop_skips.
  - unfold get_historical_intraday_data in Hrun.
    destruct (negb (Text.mem time_period _)).
    + eexists _, w1. split; [exact Hrun|]. by split.
    + exists (Return tt), w1. split; [|by split].
      rewrite Hrun. by apply intraday_loop_skips.
Qed.

(** ** Requests that are refused or cannot be resolved *)

(** C8, amended: the validation accepts exactly the seven time frames,
    the four exchanges and the five segments; and a request with a value
    outside them, or with an empty list or string, makes
    [get_historical_data] raise in the world it was called in, before
    any statement was run on the scrip master and before any broker
    call: one of its input errors when the downloader is connected, and
    otherwise the arguments error when an argument is empty and "Not
    connected" when none is. *)
Theorem invalid_request_rejected exchange exchange_segment scrip_names
    time_period from_date to_date w :
  let well_formed :=
    In time_period ["1m"; "5m"; "10m"; "15m"; "30m"; "60m"; "1d"] /\
    In exchange ["N"; "B"; "M"; "n"] /\
    In exchange_segment ["c"; "d"; "u"; "x"; "y"] in
  (validate_exchange_segment_and_time time_period exchange exchange_segment w
     = (Return tt, w) <-> well_formed) /\
  (~ (well_formed /\ scrip_names <> [] /\ from_date <> "" /\ to_date <> "") ->
   exists e,
     get_historical_data date_of exchange exchange_segment scrip_names
       time_period from_date to_date w = (Raise e, w) /\
     match client w with
     | Some _ =>
         In e [ArgumentsMissing; InvalidTimeFrame; InvalidExchange;
               InvalidExchangeSegment]
     | None =>
         e = if arguments_missing exchange exchange_segment scrip_names
                  time_period from_date to_date
             then ArgumentsMissing else NotConnected
     end).
Proof.
  cbn zeta.
  assert (Hvalid : values_valid time_period exchange exchange_segment = true <->
            In time_period ["1m"; "5m"; "10m"; "15m"; "30m"; "60m"; "1d"] /\
            In exchange ["N"; "B"; "M"; "n"] /\
            In exchange_segment ["c"; "d"; "u"; "x"; "y"]).
  { unfold values_valid, has_key. rewrite !andb_true_iff, !mem_In.
    cbn [map fst exchange_map exchange_segment_map]. unfold time_list. tauto. }
  split.
  - rewrite <- Hvalid, validate_run. unfold values_valid.
    destruct (Text.mem time_period time_list),
             (has_key exchange exchange_map),
             (has_key exchange_segment exchange_segment_map); cbn;
      split; congruence.
  - intros Hbad.
    rewrite get_historical_data_rejects.
    + eexists. split; [reflexivity|].
      destruct (client w) as [api|]; [|reflexivity].
      destruct (arguments_missing _ _ _ _ _ _); [cbn; tauto|].
      destruct (negb (Text.mem _ _)); [cbn; tauto|].
      destruct (negb (has_key _ _)); cbn; tauto.
    + destruct (arguments_missing exchange exchange_segment scrip_names time_period
                  from_date to_date) eqn:Hargs; [by left|].
      destruct (values_valid time_period exchange exchange_segment) eqn:Hv;
        [|right; by right].
      exfalso. apply Hbad. split; [by apply Hvalid|].
      unfold arguments_missing in Hargs.
      repeat (apply orb_false_iff in Hargs as [Hargs ?]).
      repeat split.
      * intros ->. discriminate.
      * intros ->. discriminate.
      * intros ->. discriminate.
Qed.

(** C9: when some name of the batch has no hit in any of the four
    tiers, [get_historical_data] ends with an exception, and no file or
    directory was written and no broker call made: nothing is downloaded
    for the securities after the failing one (nor for those before it). *)
Theorem unresolved_name_aborts exchange exchange_segment scrip_names
    time_period from_date to_date name w :
  In name scrip_names ->
  resolve_code (scrip_master w) name = None ->
  exists e w',
    get_historical_data date_of exchange exchange_segment scrip_names
      time_period from_date to_date w = (Raise e, w') /\
    files w' = files w /\ dirs w' = dirs w /\ fetched w' = fetched w.
Proof.
  intros Hin Hnone.
  destruct (arguments_missing exchange exchange_segment scrip_names time_period
              from_date to_date) eqn:Hargs.
  { eexists _, w. split; [apply get_historical_data_rejects; by left|]. by repeat split. }
  destruct (client w) as [api|] eqn:Hclient.
  2:{ eexists _, w. split; [apply get_historical_data_rejects; right; by left|].
      by repeat split. }
  destruct (values_valid time_period exchange exchange_segment) eqn:Hvalid.
  2:{ eexists _, w. split; [apply get_historical_data_rejects; right; by right|].
      by repeat split. }
  destruct (get_historical_data_run exchange exchange_segment scrip_names
              time_period from_date to_date w Hargs)
    as (w1 & (Hc & Ht & Hfe & Hfi & Hdi) & Hrun);
    [by rewrite Hclient|assumption|].
  rewrite (mapM_None_2 (resolve_code (scrip_master w)) scrip_names) in Hrun.
  - exists TypeError, w1. by repeat split.
  - apply Exists_exists. exists name. split; [by apply list_elem_of_In|assumption].
Qed.

End Properties.

(** ** The properties on the sample inputs *)

Lemma intraday_empty_range_fails_sample :
  get_historical_intraday_data "N" "c" (Some [(2885, "RELIANCE"); (11536, "TCS")])
    "30m" "2024-01-01" "2024-01-01" (Sample.world Sample.broker_echo ∅) =
  (Raise (NoDataFound "RELIANCE"), Sample.world Sample.broker_echo ∅).
Proof.
  eapply intraday_empty_range_fails.
  - reflexivity.
  - vm_compute. reflexivity.
  - vm_compute. reflexivity.
  - vm_compute. reflexivity.
  - lia.
Defined.

Lemma intraday_artifact_sample :
  frames_decide_outcome "N" "c" "30m" "2020-01-01" "2020-12-31" "NSE" "Cash"
    2885 "RELIANCE" (Sample.world Sample.broker_echo ∅).
Proof.
  destruct (intraday_artifact "N" "c" "30m" "2020-01-01" "2020-12-31" "NSE" "Cash"
              2885 "RELIANCE" 737425 737790 (Sample.world Sample.broker_echo ∅))
    as (r & w1 & Hrun & _ & Hr).
  - vm_compute. reflexivity.
  - vm_compute. reflexivity.
  - vm_compute. reflexivity.
  - vm_compute in Hrun. injection Hrun as <- <-. exact (proj2 Hr).
Defined.

Example echo_broker_artifact_content :
  let w := Sample.world Sample.broker_echo ∅ in
  files (snd (intraday_one "N" "c" "30m" "2020-01-01" "2020-12-31" "NSE" "Cash"
                2885 "RELIANCE" w)) =
  {[ "data/RELIANCE/RELIANCE_NSE_Cash_30m_2020-01-01_to_2020-12-31.csv" :=
       ["2020-01-01"; "2020-06-30"; "2020-12-28"] ]}.
Proof. vm_compute. reflexivity. Qed.

Lemma existing_artifacts_no_fetch_sample :
  let on_disk : gmap string (list string) :=
    {[ "data/RELIANCE/RELIANCE_NSE_Cash_30m_2020-01-01_to_2025-05-01.csv" :=
         ["2020-01-01"] ]} in
  let w := Sample.world Sample.broker_echo on_disk in
  exists r w',
    get_historical_data Sample.date_only "N" "c" ["RELIANCE"] "30m"
      "2020-01-01" "2025-05-01" w = (r, w') /\
    fetched w' = fetched w /\ files w' = files w.
Proof.
  cbn zeta. apply existing_artifacts_no_fetch.
  intros name file [<-|[]] Hfile.
  vm_compute in Hfile. injection Hfile as <-.
  vm_compute. reflexivity.
Defined.

Lemma daily_fetch_sample :
  let w := Sample.world Sample.broker_silent ∅ in
  let call := {| call_exchange := "N"; call_segment := "c"; call_code := 2885;
                 call_time := "1d"; call_from := "2024-01-01";
                 call_to := "2024-01-05" |} in
  daily_loop Sample.date_only "N" "c" "1d" "2024-01-01" "2024-01-05" "NSE" "Cash"
    [(2885, "RELIANCE"); (11536, "TCS")] w =
  daily_loop Sample.date_only "N" "c" "1d" "2024-01-01" "2024-01-05" "NSE" "Cash"
    [(11536, "TCS")] (log_call call (Some []) w).
Proof.
  cbn zeta.
  apply (daily_fetch Sample.date_only "N" "c" "1d" "2024-01-01" "2024-01-05"
           "NSE" "Cash" 2885 "RELIANCE" [(11536, "TCS")] Sample.broker_silent
           (Sample.world Sample.broker_silent ∅)).
  - reflexivity.
  - vm_compute. reflexivity.
Defined.

Lemma invalid_request_rejected_sample :
  let w := Sample.world Sample.broker_echo ∅ in
  exists e,
    In e [ArgumentsMissing; InvalidTimeFrame; InvalidExchange; InvalidExchangeSegment] /\
    get_historical_data Sample.date_only "X" "c" ["RELIANCE"] "1d"
      "2024-01-01" "2024-01-05" w = (Raise e, w).
Proof.
  cbn zeta.
  destruct (invalid_request_rejected Sample.date_only "X" "c" ["RELIANCE"] "1d"
              "2024-01-01" "2024-01-05" (Sample.world Sample.broker_echo ∅))
    as [_ Hrejects].
  destruct Hrejects as (e & Hrun & He).
  - intros [(_ & Hexchange & _) _]. cbn in Hexchange.
    repeat (destruct Hexchange as [Hexchange|Hexchange]; [discriminate|]).
    exact Hexchange.
  - exists e. split; [exact He|exact Hrun].
Defined.

Lemma unresolved_name_aborts_sample :
  let w := Sample.world Sample.broker_echo ∅ in
  exists e w',
    get_historical_data Sample.date_only "N" "c" ["RELIANCE"; "WIPRO"; "TCS"] "1d"
      "2024-01-01" "2024-01-05" w = (Raise e, w') /\
    files w' = files w /\ dirs w' = dirs w /\ fetched w' = fetched w.
Proof.
  cbn zeta. apply (unresolved_name_aborts _ _ _ _ _ _ _ "WIPRO").
  - cbn. tauto.
  - vm_compute. reflexivity.
Defined.

(** ** Where the code departs from the specification *)

(** C1: from 2020-01-01 to 2020-06-30 (181 days later) with time frame
    30m, the loop makes one call, for 2020-01-01 to 2020-06-29, and
    stops: the chunk does not end at the requested end date and the last
    day is never asked for. *)
Lemma intraday_last_day_not_fetched :
  let w := Sample.world Sample.broker_echo ∅ in
  let run := get_historical_data Sample.date_only "N" "c" ["RELIANCE"] "30m"
               "2020-01-01" "2020-06-30" w in
  fst run = Return tt /\
  map (fun c => (call_from (fst c), call_to (fst c))) (fetched (snd run)) =
    [("2020-01-01", "2020-06-29")] /\
  (Datetime.strptime "2020-01-01" ≫= fun d => Datetime.add_days d 181) =
    Datetime.strptime "2020-06-30".
Proof. vm_compute. repeat split. Qed.

(** C2: "GOLD" is an exact name on the secondary exchange (code 20) and
    a substring of a name on the primary exchange (code 30), and no row
    of the primary exchange is named "GOLD"; the lookup returns neither,
    but the code of the NCDEX row (exchange "n"), found by the first
    statement. *)
Lemma exact_secondary_match_loses :
  let w := Sample.world Sample.broker_echo ∅ in
  In {| Sql.Exch := "B"; Sql.ScripCode := 20; Sql.Name := "GOLD";
        Sql.FullName := "GOLD BSE" |} (scrip_master w) /\
  In {| Sql.Exch := "N"; Sql.ScripCode := 30; Sql.Name := "GOLDBEES";
        Sql.FullName := "NIPPON INDIA ETF GOLD BEES" |} (scrip_master w) /\
  Forall (fun r => Sql.Exch r = "N" -> Sql.Name r <> "GOLD") (scrip_master w) /\
  fst (get_scrip_code_by_name "GOLD" w) = Return (Some 10).
Proof.
  cbn zeta. split; [cbn; tauto|]. split; [cbn; tauto|]. split; [|reflexivity].
  repeat constructor; cbn; congruence.
Qed.

(** C3: the first statement, meant for the primary exchange "N", returns
    the row of exchange "n" (NCDEX): its comparison of the exchange
    ignores case.  Its comparison of the name does not: "reliance"
    misses the row "RELIANCE" of exchange "N". *)
Lemma tier_one_returns_other_exchange :
  let w := Sample.world Sample.broker_echo ∅ in
  Sql.fetchone (Sql.SelectByName "GOLD" "N") Sample.table =
    Some {| Sql.Exch := "n"; Sql.ScripCode := 10; Sql.Name := "GOLD";
            Sql.FullName := "GOLD NCDEX" |} /\
  get_scrip_code_by_name "GOLD" w =
    (Return (Some 10), log_query (Sql.SelectByName "GOLD" "N") w) /\
  Sql.fetchone (Sql.SelectByName "reliance" "N") Sample.table = None.
Proof. vm_compute. repeat split. Qed.

(** C4: a name without a hit in any tier makes [get_scrip_code_by_name]
    raise [TypeError] (the log message subscripts the missing row)
    instead of returning None, so [get_historical_data] ends with that
    [TypeError] and never raises "No matches found". *)
Lemma no_match_raises_type_error :
  let w := Sample.world Sample.broker_echo ∅ in
  first_hit (scrip_master w) (tiers "WIPRO") = None /\
  fst (get_scrip_code_by_name "WIPRO" w) = Raise TypeError /\
  fst (get_historical_data Sample.date_only "N" "c" ["WIPRO"] "1d"
         "2024-01-01" "2024-01-05" w) = Raise TypeError.
Proof. vm_compute. repeat split. Qed.

(** On the range of the specification's example, 2020-01-01 to
    2025-05-01, the calls are eleven consecutive chunks and the last one
    ends on the end date. *)
Example chunks_2020_2025 :
  let w := Sample.world Sample.broker_echo ∅ in
  let run := get_historical_data Sample.date_only "N" "c" ["RELIANCE"] "30m"
               "2020-01-01" "2025-05-01" w in
  map call_dates (calls_between w (snd run)) =
    [("2020-01-01", "2020-06-29"); ("2020-06-30", "2020-12-27");
     ("2020-12-28", "2021-06-26"); ("2021-06-27", "2021-12-24");
     ("2021-12-25", "2022-06-23"); ("2022-06-24", "2022-12-21");
     ("2022-12-22", "2023-06-20"); ("2023-06-21", "2023-12-18");
     ("2023-12-19", "2024-06-16"); ("2024-06-17", "2024-12-14");
     ("2024-12-15", "2025-05-01")].
Proof. vm_compute. reflexivity. Qed.

Example flaky_broker_run :
  let w := Sample.world Sample.broker_flaky ∅ in
  let run := intraday_one "N" "c" "30m" "2020-01-01" "2020-12-31" "NSE" "Cash"
               2885 "RELIANCE" w in
  frames_of (calls_between w (snd run)) = [["2020-01-01"]] /\
  fst run = Raise (CouldNotFetch "RELIANCE") /\
  files (snd run) = files w.
Proof. vm_compute. repeat split. Qed.

(** C8, as stated: on a downloader that never connected, a request with
    the exchange "X", outside the four values, is not refused with an
    input error; it raises "Not connected". *)
Lemma unconnected_request_not_rejected_as_invalid :
  ~ In "X" ["N"; "B"; "M"; "n"] /\
  get_historical_data Sample.date_only "X" "c" ["RELIANCE"] "1d"
    "2024-01-01" "2024-01-05" unconnected_world = (Raise NotConnected, unconnected_world) /\
  ~ rejected_as_invalid Sample.date_only "X" "c" ["RELIANCE"] "1d"
      "2024-01-01" "2024-01-05" unconnected_world.
Proof.
  split.
  { cbn. intros H. repeat (destruct H as [H|H]; [discriminate H|]). exact H. }
  split; [reflexivity|].
  intros (e & Hin & Hrun). vm_compute in Hrun. injection Hrun as <-.
  cbn in Hin. repeat (destruct Hin as [Hin|Hin]; [discriminate Hin|]). exact Hin.
Qed.

(** C6, as stated: with a broker that answers the first chunk with a
    row and the second with None, one chunk produced data, yet the fetch
    of 2020-01-01 to 2020-12-31 fails and no artifact is written. *)
Lemma frames_do_not_decide_outcome :
  ~ frames_decide_outcome "N" "c" "30m" "2020-01-01" "2020-12-31" "NSE" "Cash"
      2885 "RELIANCE" (Sample.world Sample.broker_flaky ∅).
Proof.
  unfold frames_decide_outcome. vm_compute. intros [Hrun _]. discriminate Hrun.
Qed.

(** * Further properties of the code *)

(** ** SQL matching *)

Lemma nocase_letter (x : string) (c : ascii) :
  In c ["N"; "B"]%char ->
  Sql.nocase_eqb x (String c "") = true <->
  x = String c "" \/ x = String (Text.lower c) "".
Proof.
  intros Hc. unfold Sql.nocase_eqb. rewrite bool_decide_eq_true.
  split.
  - intros H. unfold Text.lower_string in H.
    destruct x as [|d [|d' x]]; cbn [list_ascii_of_string map] in H;
      [discriminate H| |discriminate H].
    injection H as H.
    destruct Hc as [<-|[<-|[]]];
      destruct d as [[] [] [] [] [] [] [] []]; vm_compute in H;
      try discriminate H; auto.
  - destruct Hc as [<-|[<-|[]]]; intros [->| ->]; reflexivity.
Qed.

Lemma searched_exchange_iff (x : string) :
  In x searched_exchanges <->
  Sql.nocase_eqb x "N" = true \/ Sql.nocase_eqb x "B" = true.
Proof.
  rewrite (nocase_letter x "N"), (nocase_letter x "B") by (cbn; tauto).
  change (String (Text.lower "N") "") with "n".
  change (String (Text.lower "B") "") with "b".
  unfold searched_exchanges. cbn [In]. intuition congruence.
Qed.

Lemma like_chars_percent (p s : list ascii) :
  Sql.like_chars ("%"%char :: p) s =
  Sql.like_chars p s ||
  match s with [] => false | _ :: s' => Sql.like_chars ("%"%char :: p) s' end.
Proof. destruct s; reflexivity. Qed.

Lemma like_chars_any (s : list ascii) : Sql.like_chars ["%"%char] s = true.
Proof.
  induction s as [|c s IH]; [reflexivity|].
  rewrite like_chars_percent, IH. apply orb_true_r.
Qed.

Lemma like_chars_skip (p pre s : list ascii) :
  Sql.like_chars p s = true -> Sql.like_chars ("%"%char :: p) (pre ++ s) = true.
Proof.
  intros H. induction pre as [|c pre IH]; cbn [app]; rewrite like_chars_percent.
  - rewrite H. reflexivity.
  - rewrite IH. apply orb_true_r.
Qed.

(** A pattern matches a text that spells it out, whatever wildcards it
    holds: [%] and [_] also match themselves. *)
Lemma like_chars_spelled (p q s t : list ascii) :
  map Text.lower s = map Text.lower p ->
  Sql.like_chars q t = true ->
  Sql.like_chars (p ++ q) (s ++ t) = true.
Proof.
  intros Hlow Hq. revert s Hlow.
  induction p as [|c p IH]; intros [|d s] Hlow; try discriminate Hlow; [exact Hq|].
  injection Hlow as Hd Hlow. specialize (IH s Hlow).
  cbn [app]. destruct (Ascii.eqb c "%") eqn:Hpercent.
  - apply Ascii.eqb_eq in Hpercent. subst c.
    rewrite like_chars_percent. apply orb_true_iff. right.
    rewrite like_chars_percent. apply orb_true_iff. left. exact IH.
  - cbn [Sql.like_chars]. rewrite Hpercent.
    rewrite Hd, Ascii.eqb_refl, orb_true_r. exact IH.
Qed.

Lemma like_contains (s name : string) :
  contains_nocase s name -> Sql.like s ("%" +:+ name +:+ "%") = true.
Proof.
  intros (pre & mid & post & Hs & Hmid). unfold Sql.like.
  rewrite Hs, !chars_append.
  change (list_ascii_of_string "%") with ["%"%char]. cbn [app].
  apply like_chars_skip. apply like_chars_spelled; [exact Hmid|].
  apply like_chars_any.
Qed.

Lemma find_finds {A : Type} (f : A -> bool) (l : list A) (x : A) :
  In x l -> f x = true -> exists y, find f l = Some y.
Proof.
  induction l as [|a l IH]; cbn; [tauto|].
  intros [->|Hin] Hf.
  - rewrite Hf. by eexists.
  - destruct (f a); [by eexists|by apply IH].
Qed.

Lemma first_hit_In table qs r :
  first_hit table qs = Some r ->
  exists q, In q qs /\ In r table /\ Sql.where_ q r = true.
Proof.
  induction qs as [|q qs IH]; cbn; [discriminate|].
  destruct (Sql.fetchone q table) as [r'|] eqn:Hq.
  - intros [= ->]. exists q. apply find_some in Hq. tauto.
  - intros H. destruct (IH H) as (q' & ? & ? & ?). exists q'. tauto.
Qed.

Lemma first_hit_finds table qs q r :
  In q qs -> In r table -> Sql.where_ q r = true ->
  exists r', first_hit table qs = Some r'.
Proof.
  intros Hq Hr Hw. induction qs as [|q' qs IH]; [destruct Hq|].
  cbn. destruct (Sql.fetchone q' table) as [r'|] eqn:Hfetch; [by eexists|].
  destruct Hq as [->|Hq]; [|by apply IH].
  destruct (find_finds (Sql.where_ q) table r Hr Hw) as [y Hy].
  unfold Sql.fetchone in Hfetch. congruence.
Qed.

Section Resolver.

Context {Row : Type}.
Implicit Types (w : @World Row) (name : string).

(** X1: a code returned by [get_scrip_code_by_name] is the ScripCode of
    a row of the scrip master whose exchange is one of N, n, B, b and
    whose name is the requested one or matches the pattern %name%. *)
Theorem resolved_code_provenance name code w w' :
  get_scrip_code_by_name name w = (Return (Some code), w') ->
  exists r,
    In r (scrip_master w) /\ Sql.ScripCode r = code /\
    In (Sql.Exch r) searched_exchanges /\
    (Sql.Name r = name \/ Sql.like (Sql.Name r) ("%" +:+ name +:+ "%") = true).
Proof.
  intros Hrun.
  destruct (get_scrip_code_by_name_run name w) as (w1 & _ & Hrun1).
  rewrite Hrun in Hrun1.
  destruct (first_hit (scrip_master w) (tiers name)) as [r|] eqn:Hhit;
    [|discriminate Hrun1].
  injection Hrun1 as Hcode _.
  destruct (first_hit_In _ _ _ Hhit) as (q & Hq & Hr & Hw).
  exists r. split; [exact Hr|]. split; [congruence|].
  rewrite searched_exchange_iff.
  unfold tiers in Hq. cbn [In] in Hq.
  destruct Hq as [<-|[<-|[<-|[<-|[]]]]]; cbn [Sql.where_] in Hw;
    apply andb_true_iff in Hw as [Hname Hexch];
    (split; [tauto|]); try (left; by apply String.eqb_eq); by right.
Qed.

(** X2: the four statements are executed in their order and none is
    executed after the first one that returns a row. *)
Theorem statements_stop_at_first_hit name w :
  executed (snd (get_scrip_code_by_name name w)) =
  (rev (queries_run (scrip_master w) (tiers name)) ++ executed w)%list.
Proof.
  unfold get_scrip_code_by_name, tiers, mbind, M_bind, execute, mret, M_ret, raise.
  cbn -[Sql.fetchone String.append].
  destruct (Sql.fetchone (Sql.SelectByName name "N") (scrip_master w));
    cbn -[Sql.fetchone String.append]; [reflexivity|].
  destruct (Sql.fetchone (Sql.SelectByName name "B") (scrip_master w));
    cbn -[Sql.fetchone String.append]; [reflexivity|].
  destruct (Sql.fetchone (Sql.SelectByNameLike _ "N") (scrip_master w));
    cbn -[Sql.fetchone String.append]; [reflexivity|].
  destruct (Sql.fetchone (Sql.SelectByNameLike _ "B") (scrip_master w));
    cbn -[Sql.fetchone String.append]; reflexivity.
Qed.

(** X3: when some row of exchange N, n, B or b has a name in which the
    requested name occurs, up to ASCII case, the lookup returns a code. *)
Theorem partial_match_resolves name r w :
  In r (scrip_master w) ->
  In (Sql.Exch r) searched_exchanges ->
  contains_nocase (Sql.Name r) name ->
  exists code w', get_scrip_code_by_name name w = (Return (Some code), w').
Proof.
  intros Hr Hexch Hname.
  destruct (get_scrip_code_by_name_run name w) as (w1 & _ & ->).
  apply like_contains in Hname. apply searched_exchange_iff in Hexch.
  assert (exists r', first_hit (scrip_master w) (tiers name) = Some r') as [r' ->].
  { destruct Hexch as [Hn|Hb].
    - apply (first_hit_finds _ _ (Sql.SelectByNameLike ("%" +:+ name +:+ "%") "N") r);
        [cbn; tauto|exact Hr|]. cbn [Sql.where_]. by rewrite Hname, Hn.
    - apply (first_hit_finds _ _ (Sql.SelectByNameLike ("%" +:+ name +:+ "%") "B") r);
        [cbn; tauto|exact Hr|]. cbn [Sql.where_]. by rewrite Hname, Hb. }
  by eexists _, _.
Qed.

(** X4: [get_scrip_code_by_name] returns the code of the first of the
    four statements that has a row, and raises [TypeError] exactly when
    none has; it never returns None. *)
Theorem resolution_outcome name w :
  fst (get_scrip_code_by_name name w) =
  match resolve_code (scrip_master w) name with
  | Some code => Return (Some code)
  | None => Raise TypeError
  end.
Proof.
  destruct (get_scrip_code_by_name_run name w) as (w1 & _ & ->).
  unfold resolve_code. by destruct (first_hit _ _).
Qed.

Lemma resolve_code_has_name table name code :
  resolve_code table name = Some code -> is_Some (resolve_name table code).
Proof.
  unfold resolve_code, resolve_name. intros H.
  destruct (first_hit table (tiers name)) as [r|] eqn:Hhit; [|discriminate H].
  injection H as <-.
  destruct (first_hit_In _ _ _ Hhit) as (_ & _ & Hr & _).
  destruct (find_finds (Sql.where_ (Sql.SelectByCode (Sql.ScripCode r))) table r Hr)
    as [r' Hr'].
  { cbn. apply Z.eqb_refl. }
  unfold Sql.fetchone. rewrite Hr'. by eexists.
Qed.

(** X5: a code that [get_scrip_code_by_name] returned is always found
    again by [get_scrip_name_by_code]. *)
Theorem resolved_code_has_name name code w w' :
  get_scrip_code_by_name name w = (Return (Some code), w') ->
  exists scrip_name full_name exch,
    fst (get_scrip_name_by_code code w') =
    Return (Some (scrip_name, full_name, exch)).
Proof.
  intros Hrun.
  destruct (get_scrip_code_by_name_run name w) as (w1 & (_ & Htable & _) & Hrun1).
  rewrite Hrun in Hrun1.
  assert (Hcode : resolve_code (scrip_master w) name = Some code).
  { unfold resolve_code. destruct (first_hit _ _); [|discriminate Hrun1].
    injection Hrun1 as -> _. reflexivity. }
  assert (w1 = w') as -> by congruence.
  destruct (resolve_code_has_name _ _ _ Hcode) as [n Hn].
  rewrite get_scrip_name_by_code_run. cbn [fst]. rewrite Htable.
  unfold resolve_name in Hn.
  destruct (Sql.fetchone (Sql.SelectByCode code) (scrip_master w)) as [r|];
    [|discriminate Hn].
  by eexists _, _, _.
Qed.

(** X21: when the ScripCodes of the scrip master are unique and some
    row of exchange N, n, B or b is named exactly as requested, the name
    found again for the returned code is the requested name. *)
Theorem exact_name_is_canonical name r w :
  (forall r1 r2, In r1 (scrip_master w) -> In r2 (scrip_master w) ->
     Sql.ScripCode r1 = Sql.ScripCode r2 -> r1 = r2) ->
  In r (scrip_master w) ->
  Sql.Name r = name ->
  In (Sql.Exch r) searched_exchanges ->
  exists code w1 full_name exch,
    get_scrip_code_by_name name w = (Return (Some code), w1) /\
    fst (get_scrip_name_by_code code w1) = Return (Some (name, full_name, exch)).
Proof.
  intros Hunique Hr Hname Hexch.
  destruct (get_scrip_code_by_name_run name w) as (w1 & (_ & Htable & _) & ->).
  assert (exists hit, first_hit (scrip_master w) (tiers name) = Some hit /\
                      In hit (scrip_master w) /\ Sql.Name hit = name)
    as (hit & -> & Hhit & Hhitname).
  { unfold tiers. cbn [first_hit].
    destruct (Sql.fetchone (Sql.SelectByName name "N") (scrip_master w)) as [r1|] eqn:H1.
    { exists r1. apply find_some in H1 as [? Hw]. cbn in Hw.
      apply andb_true_iff in Hw as [Hw _]. apply String.eqb_eq in Hw. by repeat split. }
    destruct (Sql.fetchone (Sql.SelectByName name "B") (scrip_master w)) as [r2|] eqn:H2.
    { exists r2. apply find_some in H2 as [? Hw]. cbn in Hw.
      apply andb_true_iff in Hw as [Hw _]. apply String.eqb_eq in Hw. by repeat split. }
    exfalso. apply searched_exchange_iff in Hexch as [Hn|Hb].
    - destruct (find_finds (Sql.where_ (Sql.SelectByName name "N")) _ r Hr) as [y Hy].
      { cbn. rewrite Hname, String.eqb_refl, Hn. reflexivity. }
      unfold Sql.fetchone in H1. congruence.
    - destruct (find_finds (Sql.where_ (Sql.SelectByName name "B")) _ r Hr) as [y Hy].
      { cbn. rewrite Hname, String.eqb_refl, Hb. reflexivity. }
      unfold Sql.fetchone in H2. congruence. }
  exists (Sql.ScripCode hit), w1.
  rewrite get_scrip_name_by_code_run, Htable. cbn [fst].
  destruct (find_finds (Sql.where_ (Sql.SelectByCode (Sql.ScripCode hit)))
              (scrip_master w) hit Hhit) as [found Hfound].
  { cbn. apply Z.eqb_refl. }
  unfold Sql.fetchone. rewrite Hfound.
  apply find_some in Hfound as [Hin Hcode]. cbn in Hcode. apply Z.eqb_eq in Hcode.
  assert (found = hit) as -> by (by apply Hunique).
  exists (Sql.FullName hit), (Sql.Exch hit). split; [reflexivity|].
  cbn. by rewrite Hhitname.
Qed.

End Resolver.

(** ** What a download leaves behind *)

Section Downloads.

Context {Row : Type}.
Variable date_of : Row -> option Row.
Implicit Types (w : @World Row) (name : string).

Lemma extends_refl w : extends w w.
Proof. by repeat split. Qed.

Lemma extends_trans w1 w2 w3 : extends w1 w2 -> extends w2 w3 -> extends w1 w3.
Proof.
  intros (?&?&?&?) (?&?&?&?). repeat split; try congruence; by etrans.
Qed.

Lemma same_outside_sql_extends w w' : same_outside_sql w w' -> extends w w'.
Proof. intros (?&?&?&Hf&Hd). repeat split; try assumption; by rewrite ?Hf, ?Hd. Qed.

Lemma extends_exists p w w' :
  extends w w' -> os_path_exists p w = true -> os_path_exists p w' = true.
Proof.
  intros (_ & _ & Hdirs & Hfiles). unfold os_path_exists.
  rewrite !orb_true_iff, !bool_decide_eq_true. intros [Hfile|Hdir].
  - left. by eapply lookup_weaken_is_Some.
  - right. by apply Hdirs.
Qed.

Lemma save_to_csv_extends (df : list Row) scrip_name exchange_name
    exchange_segment_name time_period from_date to_date w :
  let file := file_name scrip_name exchange_name exchange_segment_name
                time_period from_date to_date in
  os_path_exists file w = false ->
  exists w', save_to_csv df file w = (Return tt, w') /\
    extends w w' /\ files w' = <[file := df]> (files w) /\
    fetched w' = fetched w /\ os_path_exists file w' = true.
Proof.
  cbn zeta. set (file := file_name _ _ _ _ _ _). intros Hex.
  destruct (save_to_csv_artifact df scrip_name exchange_name exchange_segment_name
              time_period from_date to_date w Hex)
    as (w' & Hsave & Hfiles & Hfetched & _ & Hclient & Htable).
  fold file in Hsave, Hfiles.
  exists w'. split; [exact Hsave|].
  assert (Hnone : files w !! file = None).
  { unfold os_path_exists in Hex. apply orb_false_iff in Hex as [Hex _].
    apply bool_decide_eq_false in Hex. by apply eq_None_not_Some. }
  split; [|split; [exact Hfiles|split; [exact Hfetched|]]].
  - repeat split; try assumption.
    + revert Hsave. unfold save_to_csv, mbind, M_bind, os_makedirs, to_csv, mret, M_ret.
      destruct (os_path_exists (Path.dirname file) w).
      * destruct (bool_decide (file ∈ dirs w)); intros [= <-]; done.
      * destruct (Text.is_empty (Path.dirname file)); [discriminate|].
        cbn [dirs add_dirs]. destruct (bool_decide _); intros [= <-].
        cbn [dirs write_file add_dirs]. set_solver.
    + rewrite Hfiles. by apply insert_subseteq.
  - unfold os_path_exists. rewrite Hfiles, lookup_insert_eq.
    rewrite bool_decide_eq_true_2 by (by eexists). reflexivity.
Qed.

Lemma download_chunks_raises fuel exchange exchange_segment scrip_code scrip_name
    time_period current_date end_date acc w :
  is_Some (client w) ->
  match fst (download_chunks fuel exchange exchange_segment scrip_code scrip_name
               time_period current_date end_date acc w) with
  | Raise e => raised_by_fetch e
  | _ => True
  end.
Proof.
  revert current_date acc w.
  induction fuel as [|fuel IH]; intros current_date acc w [api Hclient];
    cbn [download_chunks]; destruct (current_date <? end_date); try exact I.
  destruct (Datetime.add_days current_date 180) as [limit|]; [|exact I].
  unfold mbind at 1, M_bind at 1. unfold historical_data at 1. rewrite Hclient.
  cbn zeta. destruct (api (fetched w) _) as [df|]; [|exact I].
  destruct (Datetime.add_days _ 1) as [next|]; [|exact I].
  apply IH. cbn [client log_call]. by rewrite Hclient.
Qed.

(** The fetch of one security on the intraday path. *)
Lemma intraday_one_sound exchange exchange_segment time_period from_date to_date
    exchange_name exchange_segment_name scrip_code scrip_name w :
  is_Some (client w) ->
  exists r w',
    intraday_one exchange exchange_segment time_period from_date to_date
      exchange_name exchange_segment_name scrip_code scrip_name w = (r, w') /\
    extends w w' /\
    match r with
    | Return _ =>
        os_path_exists (file_name scrip_name exchange_name exchange_segment_name
                          time_period from_date to_date) w' = true
    | Raise e => raised_by_fetch e
    | Unfinished => False
    end.
Proof.
  intros Hclient. unfold intraday_one.
  destruct (os_path_exists _ w) eqn:Hex.
  { exists (Return tt), w. split; [reflexivity|]. split; [apply extends_refl|exact Hex]. }
  destruct (Datetime.strptime from_date) as [start_date|].
  2:{ exists (Raise ValueError), w. split; [reflexivity|].
      split; [apply extends_refl|exact I]. }
  destruct (Datetime.strptime to_date) as [end_date|].
  2:{ exists (Raise ValueError), w. split; [reflexivity|].
      split; [apply extends_refl|exact I]. }
  pose proof (download_chunks_raises (Z.to_nat (end_date - start_date)) exchange
                exchange_segment scrip_code scrip_name time_period start_date
                end_date [] w Hclient) as Hraise.
  destruct (download_chunks_run (Z.to_nat (end_date - start_date)) exchange
              exchange_segment scrip_code scrip_name time_period start_date
              end_date [] w (Nat.le_refl _))
    as (calls & r & w1 & Hrun & _ & Hfiles & Hdirs & _ & Hcl & Htbl & Hr).
  rewrite Hrun in Hraise. cbn [fst] in Hraise.
  assert (Hext : extends w w1).
  { repeat split; try assumption; by rewrite ?Hfiles, ?Hdirs. }
  unfold mbind, M_bind. rewrite Hrun.
  destruct r as [frames|e|]; [| |destruct Hr].
  2:{ exists (Raise e), w1. split; [reflexivity|]. split; [exact Hext|exact Hraise]. }
  destruct frames as [|frame frames].
  { exists (Raise (NoDataFound scrip_name)), w1. split; [reflexivity|].
    split; [exact Hext|exact I]. }
  cbn [length Nat.eqb].
  destruct (save_to_csv_extends (concat (frame :: frames)) scrip_name exchange_name
              exchange_segment_name time_period from_date to_date w1)
    as (w2 & Hsave & Hext2 & _ & _ & Hex2).
  { rewrite <- Hex. by apply os_path_exists_same. }
  exists (Return tt), w2. split; [exact Hsave|].
  split; [by eapply extends_trans|exact Hex2].
Qed.

(** The fetch of one security on the daily path. *)
Lemma daily_one_sound exchange exchange_segment time_period from_date to_date
    exchange_name exchange_segment_name scrip_code scrip_name w :
  is_Some (client w) ->
  exists r w',
    daily_one date_of exchange exchange_segment time_period from_date to_date
      exchange_name exchange_segment_name scrip_code scrip_name w = (r, w') /\
    extends w w' /\
    match r with
    | Return _ => True
    | Raise e => raised_by_fetch e
    | Unfinished => False
    end.
Proof.
  intros [api Hclient].
  destruct (os_path_exists
              (file_name scrip_name exchange_name exchange_segment_name
                 time_period from_date to_date) w) eqn:Hex.
  { exists (Return tt), w. unfold daily_one. rewrite Hex.
    split; [reflexivity|]. split; [apply extends_refl|exact I]. }
  rewrite (daily_one_run date_of _ _ _ _ _ _ _ _ _ api) by assumption.
  set (call := {| call_exchange := exchange |}).
  assert (Hext : extends w (log_call call (api (fetched w) call) w))
    by (by repeat split).
  destruct (api (fetched w) call) as [df|].
  2:{ eexists _, _. split; [reflexivity|]. by split. }
  destruct (is_empty_frame df).
  { eexists _, _. split; [reflexivity|]. by split. }
  destruct (apply_date_of date_of df) as [df'|].
  2:{ eexists _, _. split; [reflexivity|]. by split. }
  destruct (save_to_csv_extends df' scrip_name exchange_name exchange_segment_name
              time_period from_date to_date (log_call call (Some df) w))
    as (w2 & Hsave & Hext2 & _).
  { rewrite <- Hex. by apply os_path_exists_same. }
  exists (Return tt), w2. split; [exact Hsave|].
  split; [by eapply extends_trans|exact I].
Qed.

Lemma extends_client w w' : extends w w' -> is_Some (client w) -> is_Some (client w').
Proof. intros (-> & _). done. Qed.

Lemma intraday_loop_sound exchange exchange_segment time_period from_date to_date
    exchange_name exchange_segment_name scrips w :
  is_Some (client w) ->
  exists r w',
    intraday_loop exchange exchange_segment time_period from_date to_date
      exchange_name exchange_segment_name scrips w = (r, w') /\
    extends w w' /\
    match r with
    | Return _ =>
        forall kv, In kv scrips ->
          os_path_exists (file_name (snd kv) exchange_name exchange_segment_name
                            time_period from_date to_date) w' = true
    | Raise e => raised_by_fetch e
    | Unfinished => False
    end.
Proof.
  unfold intraday_loop. revert w.
  induction scrips as [|kv scrips IH]; intros w Hclient.
  - exists (Return tt), w. split; [reflexivity|].
    split; [apply extends_refl|]. intros kv [].
  - rewrite for_each_cons.
    destruct (intraday_one_sound exchange exchange_segment time_period from_date
                to_date exchange_name exchange_segment_name (fst kv) (snd kv) w
                Hclient) as (r & w1 & -> & Hext & Hr).
    destruct r as [[]|e|]; [| |destruct Hr].
    2:{ exists (Raise e), w1. split; [reflexivity|]. split; [exact Hext|exact Hr]. }
    destruct (IH w1 (extends_client _ _ Hext Hclient)) as (r2 & w2 & -> & Hext2 & Hr2).
    exists r2, w2. split; [reflexivity|]. split; [by eapply extends_trans|].
    destruct r2 as [[]|e|]; [|exact Hr2|exact Hr2].
    intros kv' [<-|Hin]; [|by apply Hr2].
    by eapply extends_exists.
Qed.

Lemma daily_loop_sound exchange exchange_segment time_period from_date to_date
    exchange_name exchange_segment_name scrips w :
  is_Some (client w) ->
  exists r w',
    daily_loop date_of exchange exchange_segment time_period from_date to_date
      exchange_name exchange_segment_name scrips w = (r, w') /\
    extends w w' /\
    match r with
    | Return _ => True
    | Raise e => raised_by_fetch e
    | Unfinished => False
    end.
Proof.
  unfold daily_loop. revert w.
  induction scrips as [|kv scrips IH]; intros w Hclient.
  - exists (Return tt), w. split; [reflexivity|]. split; [apply extends_refl|exact I].
  - rewrite for_each_cons.
    destruct (daily_one_sound exchange exchange_segment time_period from_date
                to_date exchange_name exchange_segment_name (fst kv) (snd kv) w
                Hclient) as (r & w1 & -> & Hext & Hr).
    destruct r as [[]|e|]; [| |destruct Hr].
    2:{ exists (Raise e), w1. split; [reflexivity|]. split; [exact Hext|exact Hr]. }
    destruct (IH w1 (extends_client _ _ Hext Hclient)) as (r2 & w2 & -> & Hext2 & Hr2).
    exists r2, w2. split; [reflexivity|]. split; [by eapply extends_trans|exact Hr2].
Qed.

Lemma intraday_time_frame time_period :
  Text.mem time_period time_list = true ->
  String.eqb time_period "1d" = false ->
  Text.mem time_period ["1m"; "5m"; "10m"; "15m"; "30m"; "60m"] = true.
Proof.
  rewrite !mem_In. unfold time_list. cbn [In]. intros H Hne.
  repeat (destruct H as [H|H]; [tauto|]).
  destruct H as [<-|[]]. discriminate Hne.
Qed.

Lemma resolved_codes_have_names table names codes :
  mapM (resolve_code table) names = Some codes ->
  is_Some (mapM (resolve_name table) codes).
Proof.
  intros H. apply mapM_Some_1 in H. apply mapM_is_Some_2.
  induction H as [|name code names codes Hcode _ IH]; constructor; [|exact IH].
  by eapply resolve_code_has_name.
Qed.

Lemma raised_by_fetch_download e : raised_by_fetch e -> raised_by_download e.
Proof. by destruct e. Qed.

Lemma get_historical_data_sound exchange exchange_segment scrip_names
    time_period from_date to_date w :
  exists r w',
    get_historical_data date_of exchange exchange_segment scrip_names
      time_period from_date to_date w = (r, w') /\
    extends w w' /\
    match r with
    | Return _ => True
    | Raise e => raised_by_download e
    | Unfinished => False
    end.
Proof.
  destruct (arguments_missing exchange exchange_segment scrip_names time_period
              from_date to_date) eqn:Hargs.
  { eexists _, w. split; [apply get_historical_data_rejects; by left|].
    rewrite Hargs. split; [apply extends_refl|exact I]. }
  destruct (client w) as [api|] eqn:Hclient.
  2:{ eexists _, w. split; [apply get_historical_data_rejects; right; by left|].
      rewrite Hargs, Hclient. split; [apply extends_refl|exact I]. }
  destruct (values_valid time_period exchange exchange_segment) eqn:Hvalid.
  2:{ eexists _, w. split; [apply get_historical_data_rejects; right; by right|].
      rewrite Hargs, Hclient. split; [apply extends_refl|].
      destruct (negb (Text.mem _ _)); [exact I|]. by destruct (negb (has_key _ _)). }
  destruct (get_historical_data_run date_of exchange exchange_segment scrip_names
              time_period from_date to_date w Hargs)
    as (w1 & Hsame & Hrun); [by rewrite Hclient|assumption|].
  pose proof (same_outside_sql_extends _ _ Hsame) as Hext.
  assert (Hclient1 : is_Some (client w1)).
  { apply (extends_client w); [exact Hext|by rewrite Hclient]. }
  destruct (mapM (resolve_code (scrip_master w)) scrip_names) as [codes|] eqn:Hcodes.
  2:{ exists (Raise TypeError), w1. by split. }
  destruct (resolved_codes_have_names _ _ _ Hcodes) as [names Hnames].
  rewrite Hnames in Hrun. cbn zeta in Hrun. rewrite Hrun.
  destruct (String.eqb time_period "1d") eqn:Hdaily.
  - destruct (daily_loop_sound exchange exchange_segment time_period from_date
                to_date (get_default exchange exchange exchange_map)
                (get_default exchange_segment exchange_segment exchange_segment_map)
                (dict_zip codes names) w1 Hclient1) as (r & w2 & -> & Hext2 & Hr).
    exists r, w2. split; [reflexivity|]. split; [by eapply extends_trans|].
    destruct r; [exact I|by apply raised_by_fetch_download|exact Hr].
  - unfold get_historical_intraday_data.
    unfold values_valid in Hvalid. apply andb_true_iff in Hvalid as [Hvalid _].
    apply andb_true_iff in Hvalid as [Htime _].
    rewrite (intraday_time_frame _ Htime Hdaily). cbn [negb].
    destruct (intraday_loop_sound exchange exchange_segment time_period from_date
                to_date (get_default exchange exchange exchange_map)
                (get_default exchange_segment exchange_segment exchange_segment_map)
                (dict_zip codes names) w1 Hclient1) as (r & w2 & -> & Hext2 & Hr).
    exists r, w2. split; [reflexivity|]. split; [by eapply extends_trans|].
    destruct r; [exact I|by apply raised_by_fetch_download|exact Hr].
Qed.

Lemma get_historical_data_accepted exchange exchange_segment scrip_names
    time_period from_date to_date w :
  arguments_missing exchange exchange_segment scrip_names time_period
    from_date to_date = false ->
  is_Some (client w) ->
  values_valid time_period exchange exchange_segment = true ->
  match fst (get_historical_data date_of exchange exchange_segment scrip_names
               time_period from_date to_date w) with
  | Return _ => True
  | Raise e => e = TypeError \/ raised_by_fetch e
  | Unfinished => False
  end.
Proof.
  intros Hargs Hclient Hvalid.
  destruct (get_historical_data_run date_of exchange exchange_segment scrip_names
              time_period from_date to_date w Hargs Hclient Hvalid)
    as (w1 & Hsame & Hrun).
  pose proof (same_outside_sql_extends _ _ Hsame) as Hext.
  pose proof (extends_client _ _ Hext Hclient) as Hclient1.
  destruct (mapM (resolve_code (scrip_master w)) scrip_names) as [codes|] eqn:Hcodes.
  2:{ rewrite Hrun. by left. }
  destruct (resolved_codes_have_names _ _ _ Hcodes) as [names Hnames].
  rewrite Hnames in Hrun. cbn zeta in Hrun. rewrite Hrun.
  destruct (String.eqb time_period "1d") eqn:Hdaily.
  - destruct (daily_loop_sound exchange exchange_segment time_period from_date
                to_date (get_default exchange exchange exchange_map)
                (get_default exchange_segment exchange_segment exchange_segment_map)
                (dict_zip codes names) w1 Hclient1) as (r & w2 & -> & _ & Hr).
    destruct r; [exact I|by right|exact Hr].
  - unfold get_historical_intraday_data.
    unfold values_valid in Hvalid. apply andb_true_iff in Hvalid as [Hvalid _].
    apply andb_true_iff in Hvalid as [Htime _].
    rewrite (intraday_time_frame _ Htime Hdaily). cbn [negb].
    destruct (intraday_loop_sound exchange exchange_segment time_period from_date
                to_date (get_default exchange exchange exchange_map)
                (get_default exchange_segment exchange_segment exchange_segment_map)
                (dict_zip codes names) w1 Hclient1) as (r & w2 & -> & _ & Hr).
    destruct r; [exact I|by right|exact Hr].
Qed.


(** X7: [get_historical_data] leaves the client and the scrip master as
    they were, removes no file or directory, and changes the content of
    no file that existed. *)
Theorem get_historical_data_keeps exchange exchange_segment scrip_names
    time_period from_date to_date w :
  extends w (snd (get_historical_data date_of exchange exchange_segment scrip_names
                    time_period from_date to_date w)).
Proof.
  destruct (get_historical_data_sound exchange exchange_segment scrip_names
              time_period from_date to_date w) as (r & w' & -> & Hext & _).
  exact Hext.
Qed.

(** X8: an intraday run that ended normally has written or found the
    artifact of every security, so running it again with the same
    arguments ends normally too, without a broker call and without
    writing a file. *)
Theorem intraday_rerun_fetches_nothing exchange exchange_segment scrip_names
    time_period from_date to_date w w1 :
  String.eqb time_period "1d" = false ->
  get_historical_data date_of exchange exchange_segment scrip_names
    time_period from_date to_date w = (Return tt, w1) ->
  exists w2,
    get_historical_data date_of exchange exchange_segment scrip_names
      time_period from_date to_date w1 = (Return tt, w2) /\
    fetched w2 = fetched w1 /\ files w2 = files w1.
Proof.
  intros Hdaily Hfirst.
  destruct (arguments_missing exchange exchange_segment scrip_names time_period
              from_date to_date) eqn:Hargs.
  { rewrite get_historical_data_rejects in Hfirst by (by left). discriminate Hfirst. }
  destruct (client w) as [api|] eqn:Hclient.
  2:{ rewrite get_historical_data_rejects in Hfirst by (right; by left).
      discriminate Hfirst. }
  destruct (values_valid time_period exchange exchange_segment) eqn:Hvalid.
  2:{ rewrite get_historical_data_rejects in Hfirst by (right; by right).
      discriminate Hfirst. }
  destruct (get_historical_data_run date_of exchange exchange_segment scrip_names
              time_period from_date to_date w Hargs)
    as (w' & Hsame & Hrun); [by rewrite Hclient|assumption|].
  destruct (mapM (resolve_code (scrip_master w)) scrip_names) as [codes|] eqn:Hcodes.
  2:{ rewrite Hrun in Hfirst. discriminate Hfirst. }
  destruct (resolved_codes_have_names _ _ _ Hcodes) as [names Hnames].
  rewrite Hnames in Hrun. cbn zeta in Hrun.
  rewrite Hdaily, Hfirst in Hrun. symmetry in Hrun.
  unfold get_historical_intraday_data in Hrun.
  assert (Htime : Text.mem time_period ["1m"; "5m"; "10m"; "15m"; "30m"; "60m"] = true).
  { unfold values_valid in Hvalid. apply andb_true_iff in Hvalid as [Hvalid _].
    apply andb_true_iff in Hvalid as [Htime _]. by apply intraday_time_frame. }
  rewrite Htime in Hrun. cbn [negb] in Hrun.
  pose proof (same_outside_sql_extends _ _ Hsame) as Hext.
  assert (Hclient' : is_Some (client w')).
  { apply (extends_client w); [exact Hext|by rewrite Hclient]. }
  destruct (intraday_loop_sound exchange exchange_segment time_period from_date
              to_date (get_default exchange exchange exchange_map)
              (get_default exchange_segment exchange_segment exchange_segment_map)
              (dict_zip codes names) w' Hclient') as (r & w1' & Hloop & Hext1 & Hr).
  rewrite Hloop in Hrun. injection Hrun as -> ->.
  pose proof (extends_trans _ _ _ Hext Hext1) as (Hclient1 & Htable1 & _).
  destruct (get_historical_data_run date_of exchange exchange_segment scrip_names
              time_period from_date to_date w1 Hargs)
    as (w2 & Hsame2 & Hrun2); [by rewrite Hclient1, Hclient|assumption|].
  rewrite Htable1, Hcodes, Hnames in Hrun2. cbn zeta in Hrun2.
  rewrite Hdaily in Hrun2. unfold get_historical_intraday_data in Hrun2.
  rewrite Htime in Hrun2. cbn [negb] in Hrun2.
  rewrite intraday_loop_skips in Hrun2.
  - exists w2. split; [exact Hrun2|]. destruct Hsame2 as (_ & _ & ? & ? & _). by split.
  - intros kv Hin. destruct Hsame2 as (_ & _ & _ & Hf & Hd).
    rewrite (os_path_exists_same _ w1 w2) by assumption. by apply Hr.
Qed.


(** X11: the broker calls of the chunk loop are made for consecutive
    chunks: the first starts at the start date, each starts the day
    after the previous one ended, spans at most 180 days and ends no
    later than the end date; when the loop returns, every chunk was
    asked for and the chunks reach the end date or the day before it. *)
Theorem download_chunks_chained exchange exchange_segment scrip_code scrip_name
    time_period start_date end_date acc w :
  let cs := chunks (Z.to_nat (end_date - start_date)) start_date end_date in
  exists calls rest r w1,
    download_chunks (Z.to_nat (end_date - start_date)) exchange exchange_segment
      scrip_code scrip_name time_period start_date end_date acc w = (r, w1) /\
    fetched w1 = (rev calls ++ fetched w)%list /\
    map chunk_dates cs = (map call_dates calls ++ rest)%list /\
    (forall frames, r = Return frames -> rest = []) /\
    chained start_date end_date cs /\
    (start_date < end_date -> end_date <= uncovered start_date cs <= end_date + 1).
Proof.
  cbn zeta.
  destruct (download_chunks_calls (Z.to_nat (end_date - start_date)) exchange
              exchange_segment scrip_code scrip_name time_period start_date
              end_date acc w) as (calls & rest & r & w1 & Hrun & Hcalls & Hcs & Hret).
  destruct (chunks_chained (Z.to_nat (end_date - start_date)) start_date end_date
              (Nat.le_refl _)) as [Hchain Hcover].
  exists calls, rest, r, w1. repeat (split; [assumption|]). exact Hcover.
Qed.

Lemma chunks_count fuel current_date end_date :
  (length (chunks fuel current_date end_date)
   <= Z.to_nat ((end_date - current_date + 180) / 181))%nat.
Proof.
  revert current_date. induction fuel as [|fuel IH]; intros current_date;
    cbn [chunks]; destruct (current_date <? end_date) eqn:Hlt; cbn [length]; try lia.
  apply Z.ltb_lt in Hlt.
  specialize (IH (Z.min end_date (current_date + 180) + 1)).
  assert (Hone : 1 <= (end_date - current_date + 180) / 181)
    by (apply Z.div_le_lower_bound; lia).
  assert (Hstep : (end_date - (Z.min end_date (current_date + 180) + 1) + 180) / 181
                  <= (end_date - current_date + 180) / 181 - 1).
  { destruct (Z.le_gt_cases end_date (current_date + 180)) as [Hlast|Hmore].
    - rewrite Z.min_l by lia.
      replace (end_date - (end_date + 1) + 180) with 179 by lia.
      change (179 / 181) with 0. lia.
    - rewrite Z.min_r by lia.
      replace (end_date - (current_date + 180 + 1) + 180)
        with (end_date - current_date + 180 + (-1) * 181) by lia.
      rewrite Z.div_add by lia. lia. }
  lia.
Qed.

(** X12: the chunk loop calls the broker at most once per 181 days of
    the range, rounded up. *)
Theorem download_chunks_call_count exchange exchange_segment scrip_code scrip_name
    time_period start_date end_date acc w :
  exists calls r w1,
    download_chunks (Z.to_nat (end_date - start_date)) exchange exchange_segment
      scrip_code scrip_name time_period start_date end_date acc w = (r, w1) /\
    fetched w1 = (rev calls ++ fetched w)%list /\
    (length calls <= Z.to_nat ((end_date - start_date + 180) / 181))%nat.
Proof.
  destruct (download_chunks_calls (Z.to_nat (end_date - start_date)) exchange
              exchange_segment scrip_code scrip_name time_period start_date
              end_date acc w) as (calls & rest & r & w1 & Hrun & Hcalls & Hcs & _).
  exists calls, r, w1. split; [exact Hrun|]. split; [exact Hcalls|].
  pose proof (chunks_count (Z.to_nat (end_date - start_date)) start_date end_date)
    as Hcount.
  apply (f_equal length) in Hcs. rewrite length_app, !length_map in Hcs. lia.
Qed.

End Downloads.

(** ** The dictionary of scrip codes *)

Lemma dict_set_keys {V : Type} (k : Z) (v : V) (d : list (Z * V)) k' :
  In k' (map fst (dict_set k v d)) <-> k' = k \/ In k' (map fst d).
Proof.
  induction d as [|[k0 v0] d IH]; cbn; [intuition congruence|].
  destruct (Z.eqb_spec k0 k) as [->|Hne]; cbn; [intuition congruence|].
  rewrite IH. intuition congruence.
Qed.

Lemma dict_set_NoDup {V : Type} (k : Z) (v : V) (d : list (Z * V)) :
  List.NoDup (map fst d) -> List.NoDup (map fst (dict_set k v d)).
Proof.
  induction d as [|[k0 v0] d IH]; cbn; intros Hd.
  - constructor; [intros []|constructor].
  - inversion Hd as [|? ? Hnotin Hrest]; subst.
    destruct (Z.eqb_spec k0 k) as [->|Hne]; cbn; [by constructor|].
    constructor; [|by apply IH].
    rewrite dict_set_keys. intros [->|Hin]; [by apply Hne|by apply Hnotin].
Qed.

(** X10: the dictionary built from the codes and their names holds
    every code once, however often it occurs among the codes: a security
    requested twice is downloaded once. *)
Theorem dict_zip_keys {V : Type} (keys : list Z) (values : list V) :
  List.NoDup (map fst (dict_zip keys values)) /\
  forall k, In k (map fst (dict_zip keys values)) <->
            In k (map fst (combine keys values)).
Proof.
  unfold dict_zip.
  assert (H : forall l (d : list (Z * V)),
            List.NoDup (map fst d) ->
            List.NoDup (map fst (fold_left (fun d kv => dict_set (fst kv) (snd kv) d) l d))
            /\ forall k, In k (map fst (fold_left
                                        (fun d kv => dict_set (fst kv) (snd kv) d) l d))
                     <-> In k (map fst d) \/ In k (map fst l)).
  { induction l as [|[k0 v0] l IH]; cbn [fold_left]; intros d Hd.
    - split; [exact Hd|]. intros k. cbn. tauto.
    - destruct (IH (dict_set k0 v0 d) (dict_set_NoDup _ _ _ Hd)) as [Hnodup Hkeys].
      split; [exact Hnodup|]. intros k. rewrite Hkeys, dict_set_keys.
      cbn [map fst In]. intuition congruence. }
  destruct (H (combine keys values) []) as [Hnodup Hkeys]; [constructor|].
  split; [exact Hnodup|]. intros k. rewrite Hkeys. cbn. tauto.
Qed.

(** ** Where the artifacts go *)

Lemma no_slash_append (a b : string) :
  no_slash (a +:+ b) = no_slash a && no_slash b.
Proof. unfold no_slash. by rewrite chars_append, forallb_app. Qed.

Lemma forallb_rev {A : Type} (f : A -> bool) (l : list A) :
  forallb f (rev l) = forallb f l.
Proof.
  induction l as [|a l IH]; [reflexivity|].
  cbn [rev forallb]. rewrite forallb_app, IH. cbn. rewrite andb_true_r. apply andb_comm.
Qed.

Lemma drop_while_all f (l k : list ascii) :
  forallb f l = true -> Path.drop_while f (l ++ k) = Path.drop_while f k.
Proof.
  induction l as [|c l IH]; cbn; [reflexivity|].
  intros H. apply andb_true_iff in H as [-> H]. by apply IH.
Qed.

Lemma drop_while_stops f c (l : list ascii) :
  f c = false -> Path.drop_while f (c :: l) = c :: l.
Proof. intros H. cbn. by rewrite H. Qed.

Lemma drop_while_skips f c (l : list ascii) :
  f c = true -> Path.drop_while f (c :: l) = Path.drop_while f l.
Proof. intros H. cbn. by rewrite H. Qed.

Lemma drop_while_none f (l : list ascii) :
  l <> [] -> forallb (fun c => negb (f c)) l = true ->
  forall k, Path.drop_while f (rev l ++ k) = (rev l ++ k)%list.
Proof.
  intros Hne Hall k. rewrite <- forallb_rev in Hall.
  destruct (rev l) as [|c rest] eqn:Hrev.
  - apply (f_equal (@rev ascii)) in Hrev. rewrite rev_involutive in Hrev. by destruct Hne.
  - cbn in Hall. apply andb_true_iff in Hall as [Hc _].
    cbn. apply negb_true_iff in Hc. by rewrite Hc.
Qed.

(** X20: the artifact of a security lies directly in the directory
    data/<scrip name>, provided the name is not empty and neither it
    nor the other parts of the file name hold a slash. *)
Theorem artifact_directory scrip_name exchange_name exchange_segment_name
    time_period from_date to_date :
  scrip_name <> "" ->
  no_slash scrip_name = true ->
  no_slash exchange_name = true ->
  no_slash exchange_segment_name = true ->
  no_slash time_period = true ->
  no_slash from_date = true ->
  no_slash to_date = true ->
  Path.dirname (file_name scrip_name exchange_name exchange_segment_name
                  time_period from_date to_date) = "data/" +:+ scrip_name.
Proof.
  intros Hne Hname Hexch Hseg Htime Hfrom Hto.
  unfold file_name, Path.dirname.
  set (tail := scrip_name +:+ "_" +:+ exchange_name +:+ "_" +:+ exchange_segment_name
               +:+ "_" +:+ time_period +:+ "_" +:+ from_date +:+ "_to_" +:+ to_date
               +:+ ".csv").
  assert (Htail : no_slash tail = true).
  { subst tail. rewrite !no_slash_append, Hname, Hexch, Hseg, Htime, Hfrom, Hto.
    reflexivity. }
  rewrite (chars_append "data/"), (chars_append scrip_name), (chars_append "/").
  change (list_ascii_of_string "/") with ["/"%char]. cbn [app].
  rewrite !rev_app_distr. cbn [rev app]. rewrite <- !app_assoc. cbn [app].
  rewrite drop_while_all by (rewrite forallb_rev; exact Htail).
  rewrite (drop_while_stops (fun c => negb (Path.is_slash c)) "/") by reflexivity.
  assert (Hmixed : forallb Path.is_slash
                     ("/"%char :: rev (list_ascii_of_string scrip_name)
                      ++ rev (list_ascii_of_string "data/")) = false).
  { cbn [forallb]. rewrite forallb_app. apply andb_false_iff. right.
    apply andb_false_iff. right. reflexivity. }
  rewrite Hmixed.
  rewrite (drop_while_skips Path.is_slash "/") by reflexivity.
  rewrite (drop_while_none Path.is_slash (list_ascii_of_string scrip_name)).
  - rewrite rev_app_distr, !rev_involutive, <- chars_append.
    apply string_of_list_ascii_of_string.
  - destruct scrip_name; [by destruct Hne|discriminate].
  - exact Hname.
Qed.

(** ** Connecting *)

Section Connecting.

Context {Row : Type}.
Implicit Types (h : @Session.Host Row).

Import Session.

(** Refreshing the scrip master only touches the directories, the CSV,
    the table and the count of [get_scrips] calls. *)
Lemma check_and_update_frame h :
  let h' := snd (check_and_update_scrip_master h) in
  logins h' = logins h /\ slept h' = slept h /\ clock h' = clock h /\
  login h' = login h /\ new_client h' = new_client h /\ scrips h' = scrips h /\
  client (world h') = client (world h) /\
  files (world h') = files (world h) /\
  fetched (world h') = fetched (world h).
Proof.
  unfold check_and_update_scrip_master, mbind, S_bind, get_host, lift, os_makedirs,
    get_scrips, write_scrip_master_csv, setup_database, store_scrip_master_to_db,
    needs_update, fail, mret, S_ret.
  cbn zeta.
  destruct (os_path_exists "data" (world h)); cbn;
    destruct (scrip_master_csv h) as [[mtime old]|] eqn:Hcsv; cbn; rewrite ?Hcsv; cbn;
    try (destruct (clock h - mtime <? 7 * DAY); cbn; rewrite ?Hcsv; cbn);
    try (destruct (scrips h) eqn:Hscrips; cbn; rewrite ?Hcsv; cbn);
    repeat split; congruence.
Qed.

Lemma login_attempts_run h :
  login_attempts [0; 1]%nat h =
  match login h (logins h) with
  | Welcome => (Ok tt, snd (get_totp_session h))
  | _ =>
      let h1 := snd (sleep 30 (snd (get_totp_session h))) in
      match login h (Datatypes.S (logins h)) with
      | Welcome => (Ok tt, snd (get_totp_session h1))
      | _ => (Failed CouldNotLogIn, snd (get_totp_session h1))
      end
  end.
Proof.
  cbn [login_attempts Nat.eqb]. unfold mbind, S_bind, get_totp_session, sleep, fail,
    mret, S_ret. cbn.
  destruct (login h (logins h)); cbn; [reflexivity| |];
    destruct (login h (Datatypes.S (logins h))); reflexivity.
Qed.

(** X13: [connect] asks for a session once when the first answer is a
    response and twice otherwise, never more, and sleeps 30 seconds
    between the two attempts and at no other time. *)
Theorem connect_login_attempts h :
  let h' := snd (connect h) in
  let retried := if login h (logins h) is Welcome then false else true in
  logins h' = (logins h + (if retried then 2 else 1))%nat /\
  slept h' = ((if retried then [30] else []) ++ slept h)%list.
Proof.
  cbn zeta. unfold connect, mbind, S_bind, make_client. cbn [fst snd].
  rewrite login_attempts_run. cbn [login logins set_world].
  destruct (login h (logins h)) eqn:H1.
  - cbn [snd get_totp_session].
    match goal with |- context [check_and_update_scrip_master ?x] =>
      destruct (check_and_update_frame x) as (Hl & Hs & _) end.
    rewrite Hl, Hs. cbn. split; [lia|reflexivity].
  - cbn zeta. destruct (login h (Datatypes.S (logins h))) eqn:H2; cbn [snd].
    + match goal with |- context [check_and_update_scrip_master ?x] =>
        destruct (check_and_update_frame x) as (Hl & Hs & _) end.
      rewrite Hl, Hs. cbn. split; [lia|reflexivity].
    + cbn. split; [lia|reflexivity].
    + cbn. split; [lia|reflexivity].
  - cbn zeta. destruct (login h (Datatypes.S (logins h))) eqn:H2; cbn [snd].
    + match goal with |- context [check_and_update_scrip_master ?x] =>
        destruct (check_and_update_frame x) as (Hl & Hs & _) end.
      rewrite Hl, Hs. cbn. split; [lia|reflexivity].
    + cbn. split; [lia|reflexivity].
    + cbn. split; [lia|reflexivity].
Qed.

(** X14: when both attempts fail, [connect] ends with "Could not log in
    to 5Paisa after retry" and has not touched the scrip master: no call
    of [get_scrips], the CSV and the table as they were. *)
Theorem connect_login_failure h :
  login h (logins h) <> Welcome ->
  login h (Datatypes.S (logins h)) <> Welcome ->
  exists h',
    connect h = (Failed CouldNotLogIn, h') /\
    scrips_calls h' = scrips_calls h /\
    scrip_master_csv h' = scrip_master_csv h /\
    scrip_master (world h') = scrip_master (world h) /\
    dirs (world h') = dirs (world h).
Proof.
  intros H1 H2. unfold connect, mbind, S_bind, make_client.
  rewrite login_attempts_run. cbn [login logins set_world].
  destruct (login h (logins h)); [by destruct H1| |];
    (destruct (login h (Datatypes.S (logins h))); [by destruct H2| |]);
    eexists; (split; [reflexivity|]); repeat split.
Qed.

Lemma connect_client h :
  client (world (snd (connect h))) = Some (new_client h).
Proof.
  unfold connect, mbind, S_bind, make_client.
  rewrite login_attempts_run. cbn [login logins set_world].
  destruct (login h (logins h)) eqn:H1.
  - cbn [snd get_totp_session].
    match goal with |- context [check_and_update_scrip_master ?x] =>
      destruct (check_and_update_frame x) as (_ & _ & _ & _ & _ & _ & Hc & _);
      destruct (check_and_update_scrip_master x) as [[] ?] end; exact Hc.
  - cbn zeta. destruct (login h (Datatypes.S (logins h))) eqn:H2;
      [|reflexivity|reflexivity].
    match goal with |- context [check_and_update_scrip_master ?x] =>
      destruct (check_and_update_frame x) as (_ & _ & _ & _ & _ & _ & Hc & _);
      destruct (check_and_update_scrip_master x) as [[] ?] end; exact Hc.
  - cbn zeta. destruct (login h (Datatypes.S (logins h))) eqn:H2;
      [|reflexivity|reflexivity].
    match goal with |- context [check_and_update_scrip_master ?x] =>
      destruct (check_and_update_frame x) as (_ & _ & _ & _ & _ & _ & Hc & _);
      destruct (check_and_update_scrip_master x) as [[] ?] end; exact Hc.
Qed.

(** X15: after [connect], however it ended, [self.client] is the client
    object it built: the "Not connected" guard of [get_historical_data]
    passes even after a failed login. *)
Theorem connect_sets_client h :
  client (world (snd (connect h))) = Some (new_client h).
Proof. apply connect_client. Qed.

(** X16: a scrip master CSV younger than seven days is reused: the
    broker's master list is not asked for, the CSV stays, and the table
    is replaced by the rows of the CSV. *)
Theorem fresh_scrip_master_is_reused h modified_time rows :
  scrip_master_csv h = Some (modified_time, rows) ->
  clock h - modified_time < 7 * DAY ->
  exists h',
    check_and_update_scrip_master h = (Ok tt, h') /\
    scrips_calls h' = scrips_calls h /\
    scrip_master_csv h' = scrip_master_csv h /\
    scrip_master (world h') = rows.
Proof.
  intros Hcsv Hage. apply Z.ltb_lt in Hage.
  unfold check_and_update_scrip_master, mbind, S_bind, get_host, lift, os_makedirs,
    get_scrips, write_scrip_master_csv, setup_database, store_scrip_master_to_db,
    needs_update, fail, mret, S_ret.
  cbn zeta.
  destruct (os_path_exists "data" (world h)); cbn; rewrite Hcsv, Hage; cbn;
    rewrite ?Hcsv; eexists; (split; [reflexivity|]); cbn; by rewrite ?Hcsv.
Qed.


(** X18: when the CSV is missing or too old and the broker has no master
    list, refreshing ends with "Could not fetch Scrip Master" after one
    call of [get_scrips]; the CSV and the table stay as they were: an
    old CSV is not loaded into the table. *)
Theorem unavailable_scrip_master_aborts h :
  (scrip_master_csv h = None \/
   exists modified_time old,
     scrip_master_csv h = Some (modified_time, old) /\
     7 * DAY <= clock h - modified_time) ->
  scrips h = None ->
  exists h',
    check_and_update_scrip_master h = (Failed CouldNotFetchScripMaster, h') /\
    scrips_calls h' = Datatypes.S (scrips_calls h) /\
    scrip_master_csv h' = scrip_master_csv h /\
    scrip_master (world h') = scrip_master (world h).
Proof.
  intros Hstale Hscrips.
  assert (Hneeds : needs_update h = true).
  { unfold needs_update. destruct Hstale as [->|(mtime & old & -> & Hage)];
      [reflexivity|]. apply Z.ltb_ge in Hage. by rewrite Hage. }
  unfold check_and_update_scrip_master, mbind, S_bind, get_host, lift, os_makedirs,
    get_scrips, write_scrip_master_csv, setup_database, store_scrip_master_to_db,
    fail, mret, S_ret.
  cbn zeta.
  destruct (os_path_exists "data" (world h)); cbn;
    (replace (needs_update _) with true by (by rewrite <- Hneeds));
    cbn; rewrite Hscrips; cbn; eexists; (split; [reflexivity|]); by cbn.
Qed.

Lemma connect_failures h f h' :
  connect h = (Failed f, h') -> f = CouldNotLogIn \/ f = CouldNotFetchScripMaster.
Proof.
  unfold connect, mbind, S_bind, make_client.
  rewrite login_attempts_run. cbn [login logins set_world].
  assert (Hcheck : forall x : @Host Row,
            fst (check_and_update_scrip_master x) = Failed f ->
            f = CouldNotFetchScripMaster).
  { intros x.
    unfold check_and_update_scrip_master, mbind, S_bind, get_host, lift, os_makedirs,
      get_scrips, write_scrip_master_csv, setup_database, store_scrip_master_to_db,
      needs_update, fail, mret, S_ret.
    cbn zeta.
    destruct (os_path_exists "data" (world x)); cbn;
      destruct (scrip_master_csv x) as [[mtime old]|] eqn:Hcsv; cbn;
      try destruct (clock x - mtime <? 7 * DAY); cbn;
      try destruct (scrips x); cbn; rewrite ?Hcsv; cbn; congruence. }
  destruct (login h (logins h)); cbn zeta;
    [|destruct (login h (Datatypes.S (logins h)))..];
    try (intros [= <- _]; by left);
    intros H; right; eapply Hcheck; by rewrite H.
Qed.

(** X22: the script of main.py can only fail with the login error, the
    master list error, the [TypeError] of a name without a hit, or an
    error of the intraday fetch; never with an input error or "Not
    connected". *)
Theorem test_downloader_failures (date_of : Row -> option Row) h :
  match fst (test_downloader date_of h) with
  | Ok _ => True
  | Failed f =>
      f = CouldNotLogIn \/ f = CouldNotFetchScripMaster \/
      f = Python TypeError \/ exists e, f = Python e /\ raised_by_fetch e
  end.
Proof.
  unfold test_downloader, mbind, S_bind.
  pose proof (connect_client h) as Hclient.
  destruct (connect h) as [[[]|f] h1] eqn:Hconnect.
  2:{ cbn [fst]. destruct (connect_failures _ _ _ Hconnect) as [->| ->]; tauto. }
  cbn [snd] in Hclient. unfold lift.
  pose proof (get_historical_data_accepted date_of "N" "c"
                ["DRREDDY"; "RELIANCE"; "TATAMOTORS"; "UPL"; "ICICIPRULI"; "HAL";
                 "RELIGARE"; "SUNTECK"; "ONGC"; "MOTILALOFS"; "IGPL"; "HINDPETRO";
                 "NIFTY"; "BANKNIFTY"] "30m" "2020-01-01" "2025-05-01" (world h1)
                eq_refl) as Hrun.
  destruct (get_historical_data _ _ _ _ _ _ _ (world h1)) as [[[]|e|] w1];
    cbn [fst] in *.
  - exact I.
  - destruct Hrun as [->|He]; [by rewrite Hclient|reflexivity|tauto|].
    right. right. right. by exists e.
  - destruct Hrun; [by rewrite Hclient|reflexivity].
Qed.

End Connecting.

(** ** The further properties on the sample inputs *)

Lemma resolved_code_provenance_sample :
  exists r,
    In r (scrip_master (Sample.world Sample.broker_echo ∅)) /\
    Sql.ScripCode r = 10 /\ In (Sql.Exch r) searched_exchanges /\
    (Sql.Name r = "GOLD" \/ Sql.like (Sql.Name r) ("%" +:+ "GOLD" +:+ "%") = true).
Proof.
  eapply (resolved_code_provenance "GOLD" 10 (Sample.world Sample.broker_echo ∅)).
  vm_compute. reflexivity.
Defined.

Lemma partial_match_resolves_sample :
  exists code w',
    get_scrip_code_by_name "bees" (Sample.world Sample.broker_echo ∅)
    = (Return (Some code), w').
Proof.
  apply (partial_match_resolves "bees"
           {| Sql.Exch := "N"; Sql.ScripCode := 30; Sql.Name := "GOLDBEES";
              Sql.FullName := "NIPPON INDIA ETF GOLD BEES" |}).
  - cbn. tauto.
  - cbn. tauto.
  - exists (list_ascii_of_string "GOLD"), (list_ascii_of_string "BEES"), [].
    split; reflexivity.
Defined.

Lemma resolved_code_has_name_sample :
  let w := Sample.world Sample.broker_echo ∅ in
  exists scrip_name full_name exch,
    fst (get_scrip_name_by_code 10 (snd (get_scrip_code_by_name "GOLD" w))) =
    Return (Some (scrip_name, full_name, exch)).
Proof.
  cbn zeta.
  apply (resolved_code_has_name "GOLD" 10 (Sample.world Sample.broker_echo ∅)).
  vm_compute. reflexivity.
Defined.

Lemma exact_name_is_canonical_sample :
  exists code w1 full_name exch,
    get_scrip_code_by_name "RELIANCE" (Sample.world Sample.broker_echo ∅)
    = (Return (Some code), w1) /\
    fst (get_scrip_name_by_code code w1) = Return (Some ("RELIANCE", full_name, exch)).
Proof.
  apply (exact_name_is_canonical "RELIANCE"
           {| Sql.Exch := "N"; Sql.ScripCode := 2885; Sql.Name := "RELIANCE";
              Sql.FullName := "RELIANCE INDUSTRIES LTD" |}).
  - intros r1 r2 H1 H2 Hcode. cbn in H1, H2.
    repeat (destruct H1 as [<-|H1]); try contradiction;
      repeat (destruct H2 as [<-|H2]); try contradiction;
      try reflexivity; discriminate Hcode.
  - cbn. tauto.
  - reflexivity.
  - cbn. tauto.
Defined.

Lemma intraday_rerun_fetches_nothing_sample :
  let w := Sample.world Sample.broker_echo ∅ in
  let w1 := snd (get_historical_data Sample.date_only "N" "c" ["RELIANCE"; "TCS"]
                   "30m" "2020-01-01" "2020-12-31" w) in
  exists w2,
    get_historical_data Sample.date_only "N" "c" ["RELIANCE"; "TCS"] "30m"
      "2020-01-01" "2020-12-31" w1 = (Return tt, w2) /\
    fetched w2 = fetched w1 /\ files w2 = files w1.
Proof.
  cbn zeta.
  apply (intraday_rerun_fetches_nothing Sample.date_only "N" "c" ["RELIANCE"; "TCS"]
           "30m" "2020-01-01" "2020-12-31" (Sample.world Sample.broker_echo ∅)).
  - reflexivity.
  - vm_compute. reflexivity.
Defined.


Lemma artifact_directory_sample :
  Path.dirname (file_name "RELIANCE" "NSE" "Cash" "30m" "2020-01-01" "2025-05-01")
  = "data/RELIANCE".
Proof.
  apply (artifact_directory "RELIANCE" "NSE" "Cash" "30m" "2020-01-01" "2025-05-01");
    [discriminate|reflexivity..].
Defined.

Lemma connect_login_failure_sample :
  let h := SampleHost.host (fun _ => Session.Refused) (Some Sample.table) None 0 in
  exists h',
    Session.connect h = (Session.Failed Session.CouldNotLogIn, h') /\
    Session.scrips_calls h' = Session.scrips_calls h /\
    Session.scrip_master_csv h' = Session.scrip_master_csv h /\
    scrip_master (Session.world h') = scrip_master (Session.world h) /\
    dirs (Session.world h') = dirs (Session.world h).
Proof.
  cbn zeta. apply connect_login_failure; cbn; discriminate.
Defined.

Lemma fresh_scrip_master_is_reused_sample :
  let h := SampleHost.host (fun _ => Session.Welcome) None
             (Some (0, Sample.table)) (6 * Session.DAY) in
  exists h',
    Session.check_and_update_scrip_master h = (Session.Ok tt, h') /\
    Session.scrips_calls h' = Session.scrips_calls h /\
    Session.scrip_master_csv h' = Session.scrip_master_csv h /\
    scrip_master (Session.world h') = Sample.table.
Proof.
  cbn zeta. apply (fresh_scrip_master_is_reused _ 0 Sample.table).
  - reflexivity.
  - reflexivity.
Defined.


Lemma unavailable_scrip_master_aborts_sample :
  let h := SampleHost.host (fun _ => Session.Welcome) None None 0 in
  exists h',
    Session.check_and_update_scrip_master h
    = (Session.Failed Session.CouldNotFetchScripMaster, h') /\
    Session.scrips_calls h' = Datatypes.S (Session.scrips_calls h) /\
    Session.scrip_master_csv h' = Session.scrip_master_csv h /\
    scrip_master (Session.world h') = scrip_master (Session.world h).
Proof.
  cbn zeta. apply unavailable_scrip_master_aborts.
  - by left.
  - reflexivity.
Defined.
